(** * SOC alert triage dashboard: the rule engine of [siem_desktop_app/app.py]

    The development embeds the non-UI part of the script: the CSV path
    resolution, the schema normalizer, the risk classifier, the MITRE lookup,
    the explanation bands and the shuffled table view.  Scores are IEEE-754
    binary64 numbers, as Python floats are, so the thresholds [0.70], [0.45]
    and [0.75] are the doubles Python reads from those literals. *)

From Stdlib Require Import ZArith Floats Ascii String List Bool Lia.
From stdpp Require Import base option list gmap strings sorting.
Import ListNotations.

Local Open Scope string_scope.
Local Open Scope Z_scope.

(** ** Python values and the [float()] builtin *)

Module Py.

(** The objects a score cell or an argument of the classifier can be. *)
Inductive pyobj :=
| PyNone
| PyBool (b : bool)
| PyInt (n : Z)
| PyFloat (x : float)
| PyStr (s : string).

(** The exceptions the script can let escape or catch. *)
Inductive exn :=
| FileNotFoundError (filename : string)
| ValueError
| TypeError
| OverflowError.

(** *** Text to double: the grammar of [float(str)]

    A text is the list of its code points, each below 256.  A no-break
    space (160) or next-line character (133) first becomes a space and any
    other code point from 127 on becomes a question mark, which no number
    contains.  Then leading and trailing blanks (tab to carriage return, and
    space) are dropped; what is left is an optional sign, and either [inf],
    [infinity], [nan] in any letter case, or a decimal number whose digit
    groups may be separated by single underscores, with an optional exponent.
    The value is the nearest double, ties to even; a value too large reads as
    an infinity. *)

Definition code (c : ascii) : Z := Z.of_nat (nat_of_ascii c).

Definition is_space (c : ascii) : bool :=
  let n := code c in
  ((9 <=? n) && (n <=? 13)) || (n =? 32).

Definition to_ascii (c : ascii) : ascii :=
  let n := code c in
  if n <? 127 then c
  else if (n =? 133) || (n =? 160) then " "%char
  else "?"%char.

Definition digit_val (c : ascii) : option Z :=
  let n := code c in
  if (48 <=? n) && (n <=? 57) then Some (n - 48) else None.

Definition lower (c : ascii) : ascii :=
  let n := code c in
  if (65 <=? n) && (n <=? 90) then ascii_of_nat (Z.to_nat (n + 32)) else c.

Fixpoint lstrip (l : list ascii) : list ascii :=
  match l with
  | c :: l' => if is_space c then lstrip l' else l
  | [] => []
  end.

Definition strip (l : list ascii) : list ascii :=
  rev (lstrip (rev (lstrip l))).

(** A digit accumulator: the value read so far and the number of digits. *)
Definition push_digit (acc : Z * Z) (d : Z) : Z * Z :=
  (10 * fst acc + d, snd acc + 1).

(** [(["_"] digit)*] after a first digit. *)
Fixpoint digits_tail (acc : Z * Z) (l : list ascii) : (Z * Z) * list ascii :=
  match l with
  | [] => (acc, [])
  | c :: l' =>
      match digit_val c with
      | Some d => digits_tail (push_digit acc d) l'
      | None =>
          if Ascii.eqb c "_" then
            match l' with
            | c2 :: l'' =>
                match digit_val c2 with
                | Some d => digits_tail (push_digit acc d) l''
                | None => (acc, l)
                end
            | [] => (acc, l)
            end
          else (acc, l)
      end
  end.

(** [digitpart ::= digit (["_"] digit)*], continuing from [acc]. *)
Definition digitpart (acc : Z * Z) (l : list ascii) : option ((Z * Z) * list ascii) :=
  match l with
  | c :: l' =>
      match digit_val c with
      | Some d => Some (digits_tail (push_digit acc d) l')
      | None => None
      end
  | [] => None
  end.

(** [number ::= [digitpart] "." digitpart | digitpart ["."]]: the digits as
    one integer, and how many of them follow the point. *)
Definition number (l : list ascii) : option ((Z * Z) * list ascii) :=
  match digitpart (0, 0) l with
  | Some ((vi, _), rest) =>
      match rest with
      | c :: rest' =>
          if Ascii.eqb c "." then
            match digitpart (vi, 0) rest' with
            | Some r => Some r
            | None => Some ((vi, 0), rest')
            end
          else Some ((vi, 0), rest)
      | [] => Some ((vi, 0), [])
      end
  | None =>
      match l with
      | c :: rest' => if Ascii.eqb c "." then digitpart (0, 0) rest' else None
      | [] => None
      end
  end.

Definition sign (l : list ascii) : bool * list ascii :=
  match l with
  | c :: l' =>
      if Ascii.eqb c "-" then (true, l')
      else if Ascii.eqb c "+" then (false, l') else (false, l)
  | [] => (false, [])
  end.

(** [exponent ::= ("e" | "E") [sign] digitpart], or nothing; the text must
    end there. *)
Definition exponent (l : list ascii) : option Z :=
  match l with
  | [] => Some 0
  | c :: l' =>
      if Ascii.eqb (lower c) "e" then
        let '(neg, l'') := sign l' in
        match digitpart (0, 0) l'' with
        | Some ((v, _), []) => Some (if neg then - v else v)
        | _ => None
        end
      else None
  end.

(** The double nearest to [m * 10 ^ e10], for [0 <= m]. *)
Definition decimal_to_float (neg : bool) (m e10 : Z) : float :=
  match m with
  | Z.pos p =>
      SF2Prim
        (if 0 <=? e10
         then binary_normalize prec emax ((if neg then - m else m) * 10 ^ e10) 0 false
         else SFdiv prec emax (S754_finite neg p 0)
                (S754_finite false (Z.to_pos (10 ^ (- e10))) 0))
  | _ => if neg then neg_zero else PrimFloat.zero
  end.

Definition str_to_float (s : string) : option float :=
  let '(neg, l) := sign (strip (map to_ascii (list_ascii_of_string s))) in
  let word := string_of_list_ascii (map lower l) in
  if String.eqb word "inf" || String.eqb word "infinity"
  then Some (if neg then neg_infinity else infinity)
  else if String.eqb word "nan" then Some nan
  else
    match number l with
    | Some ((m, nfrac), rest) =>
        match exponent rest with
        | Some x => Some (decimal_to_float neg m (x - nfrac))
        | None => None
        end
    | None => None
    end.

(** Integer to double: nearest, ties to even; an integer beyond the range of
    doubles raises [OverflowError]. *)
Definition int_to_float (n : Z) : exn + float :=
  match binary_normalize prec emax n 0 false with
  | S754_infinity _ => inl OverflowError
  | r => inr (SF2Prim r)
  end.

(** [float(o)]: the double, or the exception raised. *)
Definition float_of (o : pyobj) : exn + float :=
  match o with
  | PyNone => inl TypeError
  | PyBool b => inr (if b then PrimFloat.one else PrimFloat.zero)
  | PyInt n => int_to_float n
  | PyFloat x => inr x
  | PyStr s =>
      match str_to_float s with
      | Some x => inr x
      | None => inl ValueError
      end
  end.

End Py.
Import Py.

(** ** Risk level *)

Definition T_HIGH : float := 0x1.6666666666666p-1%float.   (* 0.70 *)
Definition T_MEDIUM : float := 0x1.ccccccccccccdp-2%float. (* 0.45 *)

(** Python's [a >= b] on floats. *)
Definition ge (a b : float) : bool := (b <=? a)%float.
Definition lt (a b : float) : bool := (a <? b)%float.

Definition compute_risk_level (score : pyobj) : string :=
  match float_of score with
  | inl _ => "LOW"
  | inr score =>
      if ge score T_HIGH then "HIGH"
      else if ge score T_MEDIUM then "MEDIUM"
      else "LOW"
  end.

(** ** Explanation bands *)

Definition T_STRONG : float := 0.75%float.

(** Python's [n >= c] for an integer and a float compares the exact values. *)
Definition int_ge_float (n : Z) (c : float) : bool :=
  match Prim2SF c with
  | S754_nan => false
  | S754_zero _ => 0 <=? n
  | S754_infinity s => s
  | S754_finite s m e =>
      let v := if s then Z.neg m else Z.pos m in
      if 0 <=? e then v * 2 ^ e <=? n else v <=? n * 2 ^ (- e)
  end.

(** [o >= c] for a float constant [c]; [None] and text raise [TypeError]. *)
Definition py_ge (o : pyobj) (c : float) : exn + bool :=
  match o with
  | PyFloat x => inr (ge x c)
  | PyInt n => inr (int_ge_float n c)
  | PyBool b => inr (int_ge_float (if b then 1 else 0) c)
  | PyNone | PyStr _ => inl TypeError
  end.

Definition EXPL_HIGH : list string :=
  [ "Strong privilege escalation signal";
    "Off-hours administrative activity";
    "Multiple failed authentication attempts" ].
Definition EXPL_MEDIUM : list string :=
  [ "Suspicious behavior detected"; "Moderate anomaly score" ].
Definition EXPL_LOW : list string :=
  [ "Low-confidence anomaly"; "Likely benign activity" ].

Definition ml_explanation (score : pyobj) : exn + list string :=
  match py_ge score T_STRONG with
  | inl e => inl e
  | inr true => inr EXPL_HIGH
  | inr false =>
      match py_ge score T_MEDIUM with
      | inl e => inl e
      | inr true => inr EXPL_MEDIUM
      | inr false => inr EXPL_LOW
      end
  end.

(** ** MITRE map *)

Definition MITRE_MAP : gmap string (string * string) :=
  list_to_map
    [ ("PRIV_ESC", ("Privilege Escalation", "T1068"));
      ("BRUTE_FORCE", ("Credential Access", "T1110"));
      ("LATERAL_MOVE", ("Lateral Movement", "T1021"));
      ("DATA_EXFIL", ("Exfiltration", "T1041"));
      ("MALWARE_EXEC", ("Execution", "T1059"));
      ("PORT_SCAN", ("Discovery", "T1046"));
      ("AUTH_FAILURE", ("Credential Access", "T1110")) ].

(** [MITRE_MAP.get(key, ("Unknown", "N/A"))]; a key that is not text equals
    none of the codes. *)
Definition mitre_get (key : pyobj) : string * string :=
  match key with
  | PyStr code => default ("Unknown", "N/A") (MITRE_MAP !! code)
  | _ => ("Unknown", "N/A")
  end.

(** ** Tables *)

(** A row maps column names to cells; a table lists its column names in
    order and its rows with their index labels. *)
Record DataFrame := {
  columns : list string;
  body : list (nat * gmap string pyobj)
}.

(** A cell the file left out reads as NaN. *)
Definition cell (r : gmap string pyobj) (c : string) : pyobj :=
  default (PyFloat nan) (r !! c).

Definition column (c : string) (df : DataFrame) : list pyobj :=
  (fun ir => cell ir.2 c) <$> body df.

(** [df.rename(columns={old: new})] *)
Definition rename_row (old new : string) (r : gmap string pyobj) : gmap string pyobj :=
  partial_alter (fun _ => r !! old) new (delete old r).

Definition rename (old new : string) (df : DataFrame) : DataFrame :=
  if decide (old ∈ columns df) then
    {| columns := (fun c => if decide (c = old) then new else c) <$> columns df;
       body := (fun ir => (ir.1, rename_row old new ir.2)) <$> body df |}
  else df.

(** [df[c] = vals] *)
Definition assign (c : string) (vals : list pyobj) (df : DataFrame) : DataFrame :=
  {| columns := if decide (c ∈ columns df) then columns df else columns df ++ [c];
     body := zip_with (fun ir v => (ir.1, <[c := v]> ir.2)) (body df) vals |}.

(** ** Locating and reading the CSV *)

Record sys_env := {
  MEIPASS : option string;  (* sys._MEIPASS, when the attribute exists *)
  frozen : bool;            (* getattr(sys, "frozen", False) *)
  executable_dir : string;  (* os.path.dirname(sys.executable) *)
  script_dir : string;      (* os.path.dirname(os.path.abspath(__file__)) *)
  cwd : string              (* os.getcwd() *)
}.

Definition starts_with_sep (p : string) : bool :=
  match p with
  | String c _ => Ascii.eqb c "/"
  | EmptyString => false
  end.

Fixpoint ends_with_sep (p : string) : bool :=
  match p with
  | EmptyString => false
  | String c EmptyString => Ascii.eqb c "/"
  | String _ p' => ends_with_sep p'
  end.

(** [os.path.join(a, b)] with [/] as separator. *)
Definition path_join (a b : string) : string :=
  if starts_with_sep b then b
  else if String.eqb a "" || ends_with_sep a then a ++ b
  else a ++ "/" ++ b.

Section Loader.

(** The files on disk: a path that exists, with the table [read_csv]
    parses from it.  A path that exists and does not parse (an empty file, a
    directory) is not among them. *)
Variable fs : gmap string DataFrame.
Variable env : sys_env.

Definition path_exists (p : string) : bool := bool_decide (is_Some (fs !! p)).

Definition base_dir : string :=
  if frozen env then executable_dir env else script_dir env.

Definition get_csv_path (filename : string) : exn + string :=
  let bundled :=
    match MEIPASS env with
    | Some d =>
        let mei := path_join d filename in
        if path_exists mei then Some mei else None
    | None => None
    end in
  match bundled with
  | Some mei => inr mei
  | None =>
      let exe_path := path_join base_dir filename in
      if path_exists exe_path then inr exe_path
      else
        let cwd_path := path_join (cwd env) filename in
        if path_exists cwd_path then inr cwd_path
        else inl (FileNotFoundError (filename ++ " not found"))
  end.

Definition read_csv (path : exn + string) : exn + DataFrame :=
  match path with
  | inl e => inl e
  | inr p =>
      match fs !! p with
      | Some df => inr df
      | None => inl (FileNotFoundError p)
      end
  end.

(** [try: ... "siem_alerts.csv" except FileNotFoundError: ... "siem_features.csv"] *)
Definition load_data : exn + DataFrame :=
  match read_csv (get_csv_path "siem_alerts.csv") with
  | inl (FileNotFoundError _) => read_csv (get_csv_path "siem_features.csv")
  | r => r
  end.

End Loader.

(** ** Column normalization, validation and classification *)

Definition nl : string := String (ascii_of_nat 10) "".

Definition RISK_ALIASES : list string :=
  ["risk_score"; "risk"; "score"; "anomaly_score"; "severity_score"].

Definition required_cols : list string :=
  ["alert_type"; "user"; "destination_host"; "risk_score"].

(** How the start-up code ends: the table is ready, or an error dialog was
    shown and [sys.exit(status)] called, or an exception escaped. *)
Inductive outcome :=
| Loaded (df : DataFrame)
| ErrorExit (title message : string) (status : Z)
| Uncaught (e : exn).

(** The [for col in RISK_ALIASES: if col in df.columns: ... break] loop. *)
Definition found_risk_col (df : DataFrame) : option string :=
  snd <$> list_find (fun col => col ∈ columns df) RISK_ALIASES.

(** [not found_risk_col]: [None] and the empty text are false values. *)
Definition falsy (o : option string) : bool :=
  match o with
  | None => true
  | Some s => String.eqb s ""
  end.

Definition missing_cols (df : DataFrame) : list string :=
  filter (fun c => c ∉ columns df) required_cols.

(** One cell of [astype(float)]: [float()] of the cell, and NaN for [None]. *)
Definition astype_cell (o : pyobj) : exn + float :=
  match o with
  | PyNone => inr nan
  | _ => float_of o
  end.

(** [astype(float)] on a column: the first cell that fails raises. *)
Fixpoint astype_float (l : list pyobj) : exn + list float :=
  match l with
  | [] => inr []
  | o :: l' =>
      match astype_cell o with
      | inl e => inl e
      | inr x =>
          match astype_float l' with
          | inl e => inl e
          | inr xs => inr (x :: xs)
          end
      end
  end.

(** Lines 84 to 86: the score column as floats, the derived risk level, and
    the constant status. *)
Definition classify (df : DataFrame) : outcome :=
  match astype_float (column "risk_score" df) with
  | inl e => Uncaught e
  | inr xs =>
      let df1 := assign "risk_score" (PyFloat <$> xs) df in
      let df2 := assign "risk_level"
                   ((fun o => PyStr (compute_risk_level o)) <$> column "risk_score" df1) df1 in
      let df3 := assign "status" ((fun _ => PyStr "NEW") <$> body df2) df2 in
      Loaded df3
  end.

(** The module-level code from the alias loop to the status column. *)
Definition load_table (df : DataFrame) : outcome :=
  let found := found_risk_col df in
  if falsy found then
    ErrorExit "CSV Error"
      ("No risk score column found." ++ nl ++ nl ++ "Expected one of:" ++ nl
         ++ String.concat ", " RISK_ALIASES) 1
  else
    let df := rename (default "" found) "risk_score" df in
    let missing := missing_cols df in
    match missing with
    | _ :: _ =>
        ErrorExit "CSV Error"
          ("Missing required columns:" ++ nl ++ String.concat ", " missing) 1
    | [] => classify df
    end.

(** The whole start-up: find and read the file, then build the table. *)
Definition startup (fs : gmap string DataFrame) (env : sys_env) : outcome :=
  match load_data fs env with
  | inl e => Uncaught e
  | inr df => load_table df
  end.

(** ** The displayed view *)

(** [df.sample(frac=1)]: every row once, in the order [perm] of positions
    drawn by the random generator, each with its own index label. *)
Definition sample (perm : list nat) (df : DataFrame) : DataFrame :=
  {| columns := columns df;
     body := omap (fun i => body df !! i) perm |}.

(** [reset_index(drop=True)] *)
Definition reset_index (df : DataFrame) : DataFrame :=
  {| columns := columns df;
     body := imap (fun i ir => (i, ir.2)) (body df) |}.

Definition df_view (perm : list nat) (df : DataFrame) : DataFrame :=
  reset_index (sample perm df).

(** A line of the tree widget.  The score is shown with three decimals;
    the item keeps the number itself. *)
Record tree_item := {
  iid : nat;
  values : list pyobj;
  tags : list pyobj
}.

Definition view_columns : list string :=
  ["alert_type"; "user"; "destination_host"; "risk_level"; "risk_score"; "status"].

Definition make_item (ir : nat * gmap string pyobj) : tree_item :=
  {| iid := ir.1;
     values := cell ir.2 <$> view_columns;
     tags := [cell ir.2 "risk_level"] |}.

(** [o == s] for a text [s]: only the same text is equal to it. *)
Definition py_eq_str (o : pyobj) (s : string) : bool :=
  match o with
  | PyStr t => String.eqb t s
  | _ => false
  end.

(** [df_view if sev == "ALL" else df_view[df_view["risk_level"] == sev]] *)
Definition select_severity (sev : string) (view : DataFrame) : list (nat * gmap string pyobj) :=
  if String.eqb sev "ALL" then body view
  else filter (fun ir => py_eq_str (cell ir.2 "risk_level") sev = true) (body view).

Definition populate_table (sev : string) (view : DataFrame) : list tree_item :=
  make_item <$> select_severity sev view.

(** What the investigation panel shows for the selected line. *)
Record panel := {
  panel_row : gmap string pyobj;
  tactic : string;
  technique : string;
  explanation : list string
}.

Inductive selection_result :=
| NoSelection
| IndexError
| Raised (e : exn)
| Shown (p : panel).

(** [row = df_view.iloc[int(sel[0])]], then the lookups on that row. *)
Definition on_select (sel : list nat) (view : DataFrame) : selection_result :=
  match sel with
  | [] => NoSelection
  | i :: _ =>
      match body view !! i with
      | None => IndexError
      | Some ir =>
          let row := ir.2 in
          let '(tactic, tech) := mitre_get (cell row "alert_type") in
          match ml_explanation (cell row "risk_score") with
          | inl e => Raised e
          | inr expl =>
              Shown {| panel_row := row; tactic := tactic; technique := tech;
                       explanation := expl |}
          end
      end
  end.

(** ** Charts *)

Definition CHART_COLORS : gmap string string :=
  list_to_map [("HIGH", "#dc2626"); ("MEDIUM", "#facc15"); ("LOW", "#38bdf8")].

(** The values pandas counts as missing: [None] and NaN. *)
Definition is_na (o : pyobj) : bool :=
  match o with
  | PyNone => true
  | PyFloat x => is_nan x
  | _ => false
  end.

(** A number as Python compares it: an integer (a boolean is 0 or 1) or a
    float. *)
Definition num_view (o : pyobj) : option (Z + float) :=
  match o with
  | PyBool b => Some (inl (if b then 1 else 0))
  | PyInt n => Some (inl n)
  | PyFloat x => Some (inr x)
  | PyNone | PyStr _ => None
  end.

(** [n == x] for an integer and a float compares the exact values. *)
Definition int_eq_float (n : Z) (x : float) : bool :=
  match Prim2SF x with
  | S754_zero _ => n =? 0
  | S754_finite s m e =>
      let v := if s then Z.neg m else Z.pos m in
      if 0 <=? e then n =? v * 2 ^ e else n * 2 ^ (- e) =? v
  | S754_infinity _ | S754_nan => false
  end.

(** Python's [a == b]. *)
Definition py_eqb (a b : pyobj) : bool :=
  match a, b with
  | PyStr s, PyStr t => String.eqb s t
  | PyNone, PyNone => true
  | _, _ =>
      match num_view a, num_view b with
      | Some (inl n), Some (inl m) => n =? m
      | Some (inl n), Some (inr x) | Some (inr x), Some (inl n) => int_eq_float n x
      | Some (inr x), Some (inr y) => (x =? y)%float
      | _, _ => false
      end
  end.

(** The distinct values of a list in the order they first appear. *)
Fixpoint first_seen (seen l : list pyobj) : list pyobj :=
  match l with
  | [] => []
  | o :: l' =>
      if existsb (py_eqb o) seen then first_seen seen l'
      else o :: first_seen (o :: seen) l'
  end.

Definition count_eq (k : pyobj) (l : list pyobj) : nat :=
  length (filter (fun o => py_eqb k o = true) l).

(** [Series.value_counts()]: missing values are dropped, each distinct value
    is counted, and the counts are put in descending order by [sort_values],
    the sort of the library; how it orders equal counts is left open. *)
Definition value_counts (sort_values : list (pyobj * nat) → list (pyobj * nat))
    (l : list pyobj) : list (pyobj * nat) :=
  let present := filter (fun o => is_na o = false) l in
  sort_values ((fun k => (k, count_eq k present)) <$> first_seen [] present).

(** What the two charts show: a bar per level with its colour, and a bar
    per host for at most five hosts. *)
Record charts := {
  severity_bars : list (pyobj * nat * string);
  host_bars : list (pyobj * nat)
}.

Inductive chart_result :=
| KeyError (key : pyobj)
| Drawn (c : charts).

(** [[CHART_COLORS[s] for s in counts.index]] *)
Fixpoint bar_colors (counts : list (pyobj * nat)) : pyobj + list (pyobj * nat * string) :=
  match counts with
  | [] => inr []
  | (k, n) :: rest =>
      match (match k with PyStr s => CHART_COLORS !! s | _ => None end) with
      | None => inl k
      | Some col =>
          match bar_colors rest with
          | inl k' => inl k'
          | inr bars => inr ((k, n, col) :: bars)
          end
      end
  end.

Definition update_charts (sort_values : list (pyobj * nat) → list (pyobj * nat))
    (data : list (nat * gmap string pyobj)) : chart_result :=
  let counts := value_counts sort_values ((fun ir => cell ir.2 "risk_level") <$> data) in
  match bar_colors counts with
  | inl k => KeyError k
  | inr bars =>
      let top_hosts :=
        take 5 (value_counts sort_values
                  ((fun ir => cell ir.2 "destination_host") <$> data)) in
      Drawn {| severity_bars := bars; host_bars := reverse top_hosts |}
  end.

(** The order the counts are sorted in. *)
Definition count_ge (a b : pyobj * nat) : Prop := (b.2 ≤ a.2)%nat.

(** The number of rows of [data] whose column [c] equals [k]. *)
Definition rows_with (c : string) (k : pyobj) (data : list (nat * gmap string pyobj)) : nat :=
  length (filter (fun ir => py_eqb k (cell ir.2 c) = true) data).

Global Instance count_ge_dec : RelDecision count_ge :=
  fun a b => decide (b.2 ≤ a.2)%nat.

(** A sort that can stand for the library's: merge sort by descending
    count. *)
Definition sort_by_count (l : list (pyobj * nat)) : list (pyobj * nat) :=
  merge_sort count_ge l.

Definition CHART_LEVELS : list string := ["HIGH"; "MEDIUM"; "LOW"].

(** ** Vocabulary of the statements *)

(** A score is numeric when [float()] accepts it and the result is a number;
    NaN, the value pandas gives a missing cell, is not a number. *)
Definition numeric (s : pyobj) : bool :=
  match float_of s with
  | inr x => negb (is_nan x)
  | inl _ => false
  end.

(** The explanation list that goes with a risk level. *)
Definition band_of (level : string) : list string :=
  if String.eqb level "HIGH" then EXPL_HIGH
  else if String.eqb level "MEDIUM" then EXPL_MEDIUM
  else EXPL_LOW.

Definition MITRE_CODES : list string :=
  ["PRIV_ESC"; "BRUTE_FORCE"; "LATERAL_MOVE"; "DATA_EXFIL"; "MALWARE_EXEC";
   "PORT_SCAN"; "AUTH_FAILURE"].

(** The paths [get_csv_path] tries, in order. *)
Definition candidates (env : sys_env) (filename : string) : list string :=
  match MEIPASS env with
  | Some d => [path_join d filename]
  | None => []
  end ++ [path_join (base_dir env) filename; path_join (cwd env) filename].

(** Sample scores. *)
Definition score_0_72 : float := 0x1.70a3d70a3d70ap-1%float.
Definition score_0_875 : float := 0.875%float.

(** The required columns other than the score itself. *)
Definition other_required : list string :=
  ["alert_type"; "user"; "destination_host"].

(** The text of the two error dialogs. *)
Definition no_alias_message : string :=
  "No risk score column found." ++ nl ++ nl ++ "Expected one of:" ++ nl
    ++ "risk_score, risk, score, anomaly_score, severity_score".

Definition missing_message (missing : list string) : string :=
  "Missing required columns:" ++ nl ++ String.concat ", " missing.

(** The first candidate path that exists. *)
Definition first_existing (fs : gmap string DataFrame) (env : sys_env)
    (filename : string) : option string :=
  List.find (path_exists fs) (candidates env filename).

(** A four-column file whose second score is not a number. *)
Definition alert_row (alert user host : string) (score : pyobj) : gmap string pyobj :=
  list_to_map
    [ ("alert_type", PyStr alert); ("user", PyStr user);
      ("destination_host", PyStr host); ("risk_score", score) ].

Definition bad_score_table : DataFrame :=
  {| columns := ["alert_type"; "user"; "destination_host"; "risk_score"];
     body := [ (0%nat, alert_row "PRIV_ESC" "alice" "srv1" (PyStr "0.9"));
               (1%nat, alert_row "PORT_SCAN" "bob" "srv2" (PyStr "abc")) ] |}.

(** What selecting the line of row [r] puts in the panel. *)
Definition panel_of (r : gmap string pyobj) : selection_result :=
  match ml_explanation (cell r "risk_score") with
  | inl e => Raised e
  | inr expl =>
      Shown {| panel_row := r;
               tactic := (mitre_get (cell r "alert_type")).1;
               technique := (mitre_get (cell r "alert_type")).2;
               explanation := expl |}
  end.

(** Sample inputs. *)
Definition aliased_table : DataFrame :=
  {| columns := ["alert_type"; "user"; "destination_host"; "score"; "risk"];
     body := [ (0%nat, <["risk" := PyFloat score_0_72]>
                         (<["score" := PyFloat score_0_875]>
                            (alert_row "PRIV_ESC" "alice" "srv1" PyNone))) ] |}.

Definition no_alias_table : DataFrame :=
  {| columns := ["alert_type"; "user"; "destination_host"; "severity"];
     body := [] |}.

Definition short_table : DataFrame :=
  {| columns := ["alert_type"; "risk"]; body := [] |}.

Definition loaded_row (alert : string) (score : float) : gmap string pyobj :=
  <["status" := PyStr "NEW"]>
    (<["risk_level" := PyStr (compute_risk_level (PyFloat score))]>
       (alert_row alert "alice" "srv1" (PyFloat score))).

Definition loaded_sample : DataFrame :=
  {| columns := ["alert_type"; "user"; "destination_host"; "risk_score";
                 "risk_level"; "status"];
     body := [ (0%nat, loaded_row "PRIV_ESC" score_0_875);
               (1%nat, loaded_row "PORT_SCAN" score_0_72);
               (2%nat, loaded_row "OTHER" PrimFloat.zero) ] |}.

Definition frozen_env : sys_env :=
  {| MEIPASS := Some "/tmp/_MEI1"; frozen := true; executable_dir := "/opt/app";
     script_dir := "/src"; cwd := "/work" |}.

Definition disk_features_only : gmap string DataFrame :=
  {[ "/work/siem_features.csv" := no_alias_table ]}.

(** A file that loads: three rows, the last with a missing score. *)
Definition good_table : DataFrame :=
  {| columns := ["alert_type"; "user"; "destination_host"; "risk_score"];
     body := [ (0%nat, alert_row "PRIV_ESC" "alice" "srv1" (PyFloat score_0_875));
               (1%nat, alert_row "PORT_SCAN" "bob" "srv2" (PyFloat score_0_72));
               (2%nat, alert_row "OTHER" "carol" "srv1" (PyFloat nan)) ] |}.

(** The columns the classification writes. *)
Definition derived_cols : list string := ["risk_score"; "risk_level"; "status"].

(** A listing with a level the classifier never gives. *)
Definition unknown_level_data : list (nat * gmap string pyobj) :=
  [(0%nat, <["risk_level" := PyStr "CRITICAL"]> (loaded_row "PRIV_ESC" score_0_875))].

(** Seven listed rows on six hosts. *)
Definition host_row (i : nat) (host : string) : nat * gmap string pyobj :=
  (i, <["destination_host" := PyStr host]> (loaded_row "PORT_SCAN" score_0_72)).

Definition six_hosts_data : list (nat * gmap string pyobj) :=
  [host_row 0 "a"; host_row 1 "b"; host_row 2 "b"; host_row 3 "c";
   host_row 4 "d"; host_row 5 "e"; host_row 6 "f"].

(** The levels in their order of severity. *)
Definition level_rank (level : string) : nat :=
  if String.eqb level "HIGH" then 2
  else if String.eqb level "MEDIUM" then 1 else 0.

(** A disk with both files, the first without a score column. *)
Definition disk_both : gmap string DataFrame :=
  {[ "/opt/app/siem_alerts.csv" := no_alias_table;
     "/work/siem_features.csv" := good_table ]}.

(** * Properties *)

(** ** Order on doubles *)

Lemma SFcompare_swap a b :
  SFcompare b a = option_map CompOpp (SFcompare a b).
Proof.
  destruct a as [sa|sa| |sa ma ea], b as [sb|sb| |sb mb eb]; simpl;
    try (destruct sa; reflexivity); try (destruct sb; reflexivity);
    try (destruct sa, sb; reflexivity).
  f_equal. rewrite (Z.compare_antisym ea eb).
  destruct sa, sb; try reflexivity; destruct (ea ?= eb); simpl; try reflexivity.
  - now rewrite CompOpp_involutive, (Pos.compare_cont_antisym mb ma Eq).
  - now rewrite (Pos.compare_cont_antisym ma mb Eq).
Qed.

Lemma SFcompare_refl a : a ≠ S754_nan → SFcompare a a = Some Eq.
Proof.
  destruct a as [s|s| |s m e]; simpl; intros Hn; try congruence.
  - now destruct s.
  - rewrite Z.compare_refl, Pos.compare_cont_refl. now destruct s.
Qed.

Lemma is_nan_spec x : is_nan x = true ↔ Prim2SF x = S754_nan.
Proof.
  unfold is_nan. rewrite FloatAxioms.eqb_spec. unfold SFeqb. split.
  - intros H. destruct (Prim2SF x) eqn:E; try reflexivity;
      rewrite SFcompare_refl in H by discriminate; discriminate.
  - intros ->. reflexivity.
Qed.

Lemma SFcompare_None a b :
  SFcompare a b = None → a = S754_nan ∨ b = S754_nan.
Proof.
  destruct a as [sa|sa| |sa ma ea], b as [sb|sb| |sb mb eb]; simpl;
    intros H; try discriminate; auto.
Qed.

(** [not (x >= c)] is [x < c] once neither is NaN. *)
Lemma ge_false_lt x c :
  is_nan x = false → is_nan c = false → ge x c = false → lt x c = true.
Proof.
  unfold ge, lt. rewrite leb_spec, ltb_spec. unfold SFleb, SFltb.
  intros Hx Hc. rewrite (SFcompare_swap (Prim2SF c) (Prim2SF x)).
  destruct (SFcompare (Prim2SF c) (Prim2SF x)) as [[]|] eqn:E; simpl; try done.
  apply SFcompare_None in E as [E|E]; apply is_nan_spec in E; congruence.
Qed.

Lemma lt_ge_false x c : lt x c = true → ge x c = false.
Proof.
  unfold ge, lt. rewrite leb_spec, ltb_spec. unfold SFleb, SFltb.
  rewrite (SFcompare_swap (Prim2SF c) (Prim2SF x)).
  destruct (SFcompare (Prim2SF c) (Prim2SF x)) as [[]|]; simpl; done.
Qed.

Lemma lt_not_nan x c : lt x c = true → is_nan x = false.
Proof.
  unfold lt. rewrite ltb_spec. unfold SFltb. intros H.
  destruct (is_nan x) eqn:E; [|done].
  apply is_nan_spec in E. rewrite E in H. done.
Qed.

Lemma ge_not_nan x c : ge x c = true → is_nan x = false.
Proof.
  unfold ge. rewrite leb_spec. unfold SFleb. intros H.
  destruct (is_nan x) eqn:E; [|done].
  apply is_nan_spec in E. rewrite E in H.
  destruct (Prim2SF c); done.
Qed.

(** The order is transitive: below [a] and [a <= b] gives below [b]. *)
Lemma SFcompare_lt_le_trans x a b :
  SFcompare x a = Some Lt →
  (SFcompare a b = Some Lt ∨ SFcompare a b = Some Eq) →
  SFcompare x b = Some Lt.
Proof.
  destruct x as [sx|sx| |sx mx ex], a as [sa|sa| |sa ma ea],
    b as [sb|sb| |sb mb eb]; simpl;
    try (destruct sx); try (destruct sa); try (destruct sb);
    intros H [H'|H']; try done.
  all: f_equal; injection H as H; injection H' as H'.
  all: destruct (Z.compare_spec ex ea), (Z.compare_spec ea eb),
    (Z.compare_spec ex eb); try done; try lia; subst.
  all: rewrite ?Pos.compare_cont_spec in *; simpl in *.
  all: try (destruct (Pos.compare_spec mx ma), (Pos.compare_spec ma mb),
    (Pos.compare_spec mx mb); simpl in *; try done; try lia).
Qed.

Lemma lt_le_trans x a b :
  lt x a = true → ge b a = true → lt x b = true.
Proof.
  unfold ge, lt. rewrite leb_spec, !ltb_spec. unfold SFleb, SFltb.
  intros H H'.
  destruct (SFcompare (Prim2SF x) (Prim2SF a)) as [[]|] eqn:E; try done.
  rewrite (SFcompare_lt_le_trans _ _ (Prim2SF b) E); [done|].
  destruct (SFcompare (Prim2SF a) (Prim2SF b)) as [[]|]; try done; auto.
Qed.


(** ** The classifier *)

Lemma thresholds_read :
  str_to_float "0.70" = Some T_HIGH ∧ str_to_float "0.45" = Some T_MEDIUM
  ∧ str_to_float "0.75" = Some T_STRONG.
Proof. repeat split; vm_compute; reflexivity. Qed.

Lemma thresholds_ordered :
  is_nan T_MEDIUM = false ∧ is_nan T_HIGH = false ∧ is_nan T_STRONG = false
  ∧ ge T_HIGH T_MEDIUM = true ∧ ge T_STRONG T_HIGH = true
  ∧ ge T_HIGH T_STRONG = false.
Proof. repeat split; reflexivity. Qed.

(** The lower bounds are inclusive. *)
Lemma boundary_scores :
  compute_risk_level (PyFloat T_HIGH) = "HIGH"
  ∧ compute_risk_level (PyStr "0.70") = "HIGH"
  ∧ compute_risk_level (PyFloat T_MEDIUM) = "MEDIUM"
  ∧ compute_risk_level (PyStr "0.45") = "MEDIUM"
  ∧ compute_risk_level (PyFloat nan) = "LOW"
  ∧ compute_risk_level PyNone = "LOW".
Proof. repeat split; vm_compute; reflexivity. Qed.

(** The three branches of the classifier, on the converted score. *)
Lemma risk_level_cases x :
  let level := if ge x T_HIGH then "HIGH" else if ge x T_MEDIUM then "MEDIUM" else "LOW" in
  (level = "HIGH" ↔ ge x T_HIGH = true)
  ∧ (level = "MEDIUM" ↔ ge x T_MEDIUM = true ∧ lt x T_HIGH = true)
  ∧ (level = "LOW" ↔ lt x T_MEDIUM = true ∨ is_nan x = true).
Proof.
  simpl. destruct (ge x T_HIGH) eqn:EH; [|destruct (ge x T_MEDIUM) eqn:EM].
  - pose proof (ge_not_nan _ _ EH) as Hn.
    repeat split; try done.
    + intros [_ Hl]. apply lt_ge_false in Hl. congruence.
    + intros [Hl|?]; [|congruence].
      assert (lt x T_HIGH = true) as Hl' by (apply (lt_le_trans _ _ _ Hl); reflexivity).
      apply lt_ge_false in Hl'. congruence.
  - pose proof (ge_not_nan _ _ EM) as Hn.
    repeat split; try done.
    + apply ge_false_lt; done.
    + intros [Hl|?]; [|congruence]. apply lt_ge_false in Hl. congruence.
  - repeat split; try done.
    + intros [? _]; done.
    + intros _. destruct (is_nan x) eqn:Hn; [by right|left].
      apply ge_false_lt; done.
Qed.

(** The bands for any object, through its conversion. *)
Lemma risk_level_via_float (s : pyobj) :
  (compute_risk_level s = "HIGH" ↔
     ∃ x, float_of s = inr x ∧ ge x T_HIGH = true)
  ∧ (compute_risk_level s = "MEDIUM" ↔
       ∃ x, float_of s = inr x ∧ ge x T_MEDIUM = true ∧ lt x T_HIGH = true)
  ∧ (compute_risk_level s = "LOW" ↔
       (∃ x, float_of s = inr x ∧ lt x T_MEDIUM = true) ∨ numeric s = false).
Proof.
  unfold compute_risk_level, numeric.
  destruct (float_of s) as [e|x] eqn:E.
  - repeat split; try done.
    + intros (x & ? & _); done.
    + intros (x & ? & _); done.
    + by right.
  - destruct (risk_level_cases x) as (HH & HM & HL). simpl in HH, HM, HL.
    repeat split.
    + intros H. exists x. split; [done|]. by apply HH.
    + intros (y & [= <-] & H). by apply HH.
    + intros H. exists x. split; [done|]. by apply HM.
    + intros (y & [= <-] & H). by apply HM.
    + intros H. apply HL in H as [H|H]; [left; by exists x|right; by rewrite H].
    + intros [(y & [= <-] & H)|H]; apply HL; [by left|right].
      by destruct (is_nan x).
Qed.

(** What [float()] gives for the kinds of score. *)
Lemma float_of_kinds :
  (∀ x, float_of (PyFloat x) = inr x)
  ∧ float_of PyNone = inl TypeError
  ∧ (∀ t, float_of (PyStr t)
          = match str_to_float t with Some x => inr x | None => inl ValueError end)
  ∧ float_of (PyStr "0.70") = inr T_HIGH
  ∧ float_of (PyStr " 0.45 ") = inr T_MEDIUM
  ∧ float_of (PyStr "abc") = inl ValueError
  ∧ float_of (PyStr "") = inl ValueError
  ∧ float_of (PyStr (String (ascii_of_nat 28) "0.70")) = inl ValueError
  ∧ float_of (PyInt 1) = inr PrimFloat.one
  ∧ float_of (PyInt 0) = inr PrimFloat.zero
  ∧ float_of (PyBool true) = inr PrimFloat.one.
Proof. repeat split; vm_compute; reflexivity. Qed.

(** C1. For every score [s], [compute_risk_level s] is HIGH iff
    [s >= 0.70], MEDIUM iff [0.45 <= s < 0.70], and LOW iff [s < 0.45] or [s]
    is not numeric ([float()] rejects it, or it is NaN): for a float score
    directly, for any object through the float it converts to, and LOW for
    [None] and for every text that is not a float literal. *)
Theorem compute_risk_level_bands :
  (∀ x : float,
     (compute_risk_level (PyFloat x) = "HIGH" ↔ ge x T_HIGH = true)
     ∧ (compute_risk_level (PyFloat x) = "MEDIUM"
        ↔ ge x T_MEDIUM = true ∧ lt x T_HIGH = true)
     ∧ (compute_risk_level (PyFloat x) = "LOW"
        ↔ lt x T_MEDIUM = true ∨ is_nan x = true)
     ∧ numeric (PyFloat x) = negb (is_nan x))
  ∧ (∀ s : pyobj,
       (compute_risk_level s = "HIGH" ↔
          ∃ x, float_of s = inr x ∧ ge x T_HIGH = true)
       ∧ (compute_risk_level s = "MEDIUM" ↔
            ∃ x, float_of s = inr x ∧ ge x T_MEDIUM = true ∧ lt x T_HIGH = true)
       ∧ (compute_risk_level s = "LOW" ↔
            (∃ x, float_of s = inr x ∧ lt x T_MEDIUM = true) ∨ numeric s = false))
  ∧ (compute_risk_level PyNone = "LOW" ∧ numeric PyNone = false)
  ∧ (∀ t, str_to_float t = None →
          compute_risk_level (PyStr t) = "LOW" ∧ numeric (PyStr t) = false)
  ∧ (∀ t x, str_to_float t = Some x →
            compute_risk_level (PyStr t) = compute_risk_level (PyFloat x))
  ∧ (compute_risk_level (PyStr "0.70") = "HIGH"
     ∧ compute_risk_level (PyStr "0.69") = "MEDIUM"
     ∧ compute_risk_level (PyStr "0.45") = "MEDIUM"
     ∧ compute_risk_level (PyStr "0.44") = "LOW"
     ∧ compute_risk_level (PyStr "abc") = "LOW"
     ∧ compute_risk_level (PyStr "nan") = "LOW"
     ∧ compute_risk_level (PyInt 1) = "HIGH"
     ∧ compute_risk_level (PyInt 0) = "LOW").
Proof.
  split; [|split; [apply risk_level_via_float|]].
  - intros x. destruct (risk_level_cases x) as (HH & HM & HL).
    unfold compute_risk_level, numeric. simpl. done.
  - split; [done|]. split; [|split].
    + intros t Ht. unfold compute_risk_level, numeric. simpl. by rewrite Ht.
    + intros t x Ht. unfold compute_risk_level. simpl. by rewrite Ht.
    + repeat split; vm_compute; reflexivity.
Qed.

Lemma compute_risk_level_range (s : pyobj) :
  compute_risk_level s = "LOW" ∨ compute_risk_level s = "MEDIUM"
  ∨ compute_risk_level s = "HIGH".
Proof.
  unfold compute_risk_level.
  destruct (float_of s) as [e|x]; [by left|].
  destruct (ge x T_HIGH); [by right; right|].
  destruct (ge x T_MEDIUM); [by right; left|by left].
Qed.

Lemma levels_are_not_scores :
  compute_risk_level (PyStr "LOW") = "LOW"
  ∧ compute_risk_level (PyStr "MEDIUM") = "LOW"
  ∧ compute_risk_level (PyStr "HIGH") = "LOW".
Proof. repeat split; vm_compute; reflexivity. Qed.

(** C9, as stated, fails: the level of 0.875 is HIGH, and the level of the
    text HIGH is LOW. *)
Lemma compute_risk_level_not_idempotent :
  compute_risk_level (PyFloat score_0_875) = "HIGH"
  ∧ compute_risk_level (PyStr (compute_risk_level (PyFloat score_0_875))) = "LOW"
  ∧ ¬ (∀ s, compute_risk_level (PyStr (compute_risk_level s)) = compute_risk_level s).
Proof.
  assert (compute_risk_level (PyFloat score_0_875) = "HIGH") as H1
    by (vm_compute; reflexivity).
  assert (compute_risk_level (PyStr (compute_risk_level (PyFloat score_0_875))) = "LOW")
    as H2 by (vm_compute; reflexivity).
  repeat split; try done.
  intros H. specialize (H (PyFloat score_0_875)). rewrite H1 in H at 2.
  rewrite H2 in H. discriminate.
Qed.

(** C9, amended. [compute_risk_level] is total: on every input it returns
    one of LOW, MEDIUM, HIGH.  Applied to its own result it returns LOW, so
    classifying twice agrees with classifying once exactly on the inputs whose
    level is LOW. *)
Theorem compute_risk_level_total_twice_low (s : pyobj) :
  compute_risk_level s ∈ ["LOW"; "MEDIUM"; "HIGH"]
  ∧ compute_risk_level (PyStr (compute_risk_level s)) = "LOW"
  ∧ (compute_risk_level (PyStr (compute_risk_level s)) = compute_risk_level s
     ↔ compute_risk_level s = "LOW").
Proof.
  destruct levels_are_not_scores as (HL & HM & HH).
  destruct (compute_risk_level_range s) as [E|[E|E]]; rewrite E;
    (split; [set_solver|]); (split; [done|]); rewrite ?HL, ?HM, ?HH; done.
Qed.

(** ** The explanation bands against the classifier *)

Lemma ml_explanation_float x :
  ml_explanation (PyFloat x) =
    inr (if ge x T_STRONG then EXPL_HIGH
         else if ge x T_MEDIUM then EXPL_MEDIUM else EXPL_LOW).
Proof.
  unfold ml_explanation, py_ge.
  destruct (ge x T_STRONG); [done|]. by destruct (ge x T_MEDIUM).
Qed.

Lemma ge_strong_ge_high x : ge x T_STRONG = true → ge x T_HIGH = true.
Proof.
  intros H. destruct (ge x T_HIGH) eqn:E; [done|].
  apply ge_false_lt in E; [|by eapply ge_not_nan|done].
  assert (lt x T_STRONG = true) as Hl by (apply (lt_le_trans _ _ _ E); reflexivity).
  apply lt_ge_false in Hl. congruence.
Qed.

(** X3. The two functions pick the same band except for scores from 0.70 up
    to, and not including, 0.75. *)
Lemma ml_explanation_agrees_iff x :
  ml_explanation (PyFloat x) = inr (band_of (compute_risk_level (PyFloat x)))
  ↔ ¬ (ge x T_HIGH = true ∧ ge x T_STRONG = false).
Proof.
  rewrite ml_explanation_float. unfold compute_risk_level. simpl.
  destruct (ge x T_STRONG) eqn:ES.
  - rewrite (ge_strong_ge_high _ ES). split; [intros _ [_ ?]|]; done.
  - destruct (ge x T_HIGH) eqn:EH.
    + assert (ge x T_MEDIUM = true) as ->.
      { destruct (ge x T_MEDIUM) eqn:EM; [done|].
        apply ge_false_lt in EM; [|by eapply ge_not_nan|done].
        assert (lt x T_HIGH = true) as Hl
          by (apply (lt_le_trans _ _ _ EM); reflexivity).
        apply lt_ge_false in Hl. congruence. }
      split; [discriminate|]. intros H. exfalso. by apply H.
    + destruct (ge x T_MEDIUM); (split; [intros _ [? _]|]; done).
Qed.

(** C3. At the score 0.72 the classifier says HIGH and the explanation is
    the medium one: the explanation band starts at 0.75, not at 0.70. *)
Theorem ml_explanation_band_mismatch :
  str_to_float "0.72" = Some score_0_72
  ∧ compute_risk_level (PyFloat score_0_72) = "HIGH"
  ∧ ml_explanation (PyFloat score_0_72) = inr EXPL_MEDIUM
  ∧ EXPL_MEDIUM ≠ band_of "HIGH".
Proof. repeat split; try (vm_compute; reflexivity). discriminate. Qed.

(** ** The MITRE lookup *)

Lemma MITRE_MAP_dom code : MITRE_MAP !! code = None ↔ code ∉ MITRE_CODES.
Proof.
  unfold MITRE_MAP. rewrite <- not_elem_of_list_to_map. reflexivity.
Qed.

(** C8. The code PRIV_ESC maps to (Privilege Escalation, T1068); every code
    that is not one of the seven keys, UNKNOWN_CODE among them, maps to
    (Unknown, N/A). *)
Theorem mitre_lookup :
  mitre_get (PyStr "PRIV_ESC") = ("Privilege Escalation", "T1068")
  ∧ (∀ code, code ∉ MITRE_CODES → mitre_get (PyStr code) = ("Unknown", "N/A"))
  ∧ mitre_get (PyStr "UNKNOWN_CODE") = ("Unknown", "N/A").
Proof.
  split; [vm_compute; reflexivity|]. split; [|vm_compute; reflexivity].
  intros code H. apply MITRE_MAP_dom in H. unfold mitre_get. by rewrite H.
Qed.

Lemma mitre_lookup_unknown_code :
  ("UNKNOWN_CODE" ∉ MITRE_CODES)
  ∧ mitre_get (PyStr "UNKNOWN_CODE") = ("Unknown", "N/A").
Proof.
  assert ("UNKNOWN_CODE" ∉ MITRE_CODES) as H
    by (apply MITRE_MAP_dom; vm_compute; reflexivity).
  split; [exact H|].
  exact (proj1 (proj2 mitre_lookup) "UNKNOWN_CODE" H).
Defined.

(** ** The schema normalizer *)

Lemma found_risk_col_Some df a :
  found_risk_col df = Some a ↔
  ∃ i, RISK_ALIASES !! i = Some a ∧ a ∈ columns df
       ∧ ∀ j b, RISK_ALIASES !! j = Some b → (j < i)%nat → b ∉ columns df.
Proof.
  unfold found_risk_col. split.
  - destruct (list_find _ _) as [[i x]|] eqn:E; [|done].
    intros [= <-]. apply list_find_Some in E. by exists i.
  - intros (i & H).
    apply (list_find_Some (fun col => col ∈ columns df)) in H. by rewrite H.
Qed.

Lemma found_risk_col_None df :
  found_risk_col df = None ↔ ∀ a, a ∈ RISK_ALIASES → a ∉ columns df.
Proof.
  unfold found_risk_col. rewrite fmap_None, list_find_None, Forall_forall.
  reflexivity.
Qed.

Lemma found_risk_col_truthy df a : found_risk_col df = Some a → falsy (Some a) = false.
Proof.
  intros (i & Hi & _)%found_risk_col_Some.
  apply list_elem_of_lookup_2 in Hi. unfold RISK_ALIASES in Hi.
  repeat (apply elem_of_cons in Hi as [->|Hi]; [reflexivity|]).
  by apply elem_of_nil in Hi.
Qed.

Lemma rename_columns old new df :
  old ∈ columns df →
  columns (rename old new df) = (fun c => if decide (c = old) then new else c) <$> columns df.
Proof. intros H. unfold rename. by rewrite decide_True. Qed.

Lemma rename_has_new old new df : old ∈ columns df → new ∈ columns (rename old new df).
Proof.
  intros H. rewrite rename_columns by done.
  apply list_elem_of_fmap. exists old. by rewrite decide_True.
Qed.

Lemma rename_column_data old new df :
  old ∈ columns df → column new (rename old new df) = column old df.
Proof.
  intros H. unfold column, rename. rewrite decide_True by done. simpl.
  rewrite <- list_fmap_compose. apply list_fmap_ext. intros _ [i r] _. simpl.
  unfold cell, rename_row. by rewrite lookup_partial_alter_eq.
Qed.

Lemma rename_row_other old new r c :
  c ≠ old → c ≠ new → rename_row old new r !! c = r !! c.
Proof.
  intros H1 H2. unfold rename_row.
  rewrite lookup_partial_alter_ne by done. by rewrite lookup_delete_ne.
Qed.

Lemma missing_cols_other df :
  "risk_score" ∈ columns df →
  missing_cols df = filter (fun c => c ∉ columns df) other_required.
Proof.
  intros H. unfold missing_cols.
  change required_cols with (other_required ++ ["risk_score"])%list.
  rewrite filter_app. rewrite (filter_cons_False _ "risk_score") by (intros ?; done).
  by rewrite filter_nil, app_nil_r.
Qed.

(** What the start-up code does once the alias loop has bound a column. *)
Lemma load_table_found df a :
  found_risk_col df = Some a →
  load_table df =
    match filter (fun c => c ∉ columns (rename a "risk_score" df)) other_required with
    | [] => classify (rename a "risk_score" df)
    | missing => ErrorExit "CSV Error" (missing_message missing) 1
    end.
Proof.
  intros H. unfold load_table. rewrite H, (found_risk_col_truthy _ _ H). simpl.
  apply found_risk_col_Some in H as (i & _ & Ha & _).
  rewrite missing_cols_other by by apply rename_has_new.
  by destruct (filter _ other_required).
Qed.

(** C4. The normalizer binds the score column to the first alias, in the
    order risk_score, risk, score, anomaly_score, severity_score, that is a
    column of the table, and renames that column to risk_score, keeping its
    cells; a table with columns risk and score (and no risk_score) binds to
    risk. *)
Theorem normalizer_first_alias :
  (∀ df i a,
     RISK_ALIASES !! i = Some a → a ∈ columns df →
     (∀ j b, RISK_ALIASES !! j = Some b → (j < i)%nat → b ∉ columns df) →
     found_risk_col df = Some a
     ∧ columns (rename a "risk_score" df)
       = (fun c => if decide (c = a) then "risk_score" else c) <$> columns df
     ∧ column "risk_score" (rename a "risk_score" df) = column a df
     ∧ load_table df =
         match filter (fun c => c ∉ columns (rename a "risk_score" df)) other_required with
         | [] => classify (rename a "risk_score" df)
         | missing => ErrorExit "CSV Error" (missing_message missing) 1
         end)
  ∧ (∀ df, "risk" ∈ columns df → "score" ∈ columns df →
           "risk_score" ∉ columns df → found_risk_col df = Some "risk").
Proof.
  split.
  - intros df i a Hi Ha Hfirst.
    assert (found_risk_col df = Some a) as Hf
      by (apply found_risk_col_Some; by exists i).
    split; [done|]. split; [by apply rename_columns|].
    split; [by apply rename_column_data|by apply load_table_found].
  - intros df Hr _ Hn. apply found_risk_col_Some. exists 1%nat.
    split; [done|]. split; [done|].
    intros [|j] b Hb Hj; [|lia]. by injection Hb as <-.
Qed.

Lemma normalizer_first_alias_risk :
  found_risk_col aliased_table = Some "risk"
  ∧ columns (rename "risk" "risk_score" aliased_table)
    = ["alert_type"; "user"; "destination_host"; "score"; "risk_score"]
  ∧ column "risk_score" (rename "risk" "risk_score" aliased_table)
    = [PyFloat score_0_72].
Proof.
  assert ("risk" ∈ columns aliased_table) as Hin
    by (apply list_elem_of_In; vm_compute; tauto).
  assert (∀ j b, RISK_ALIASES !! j = Some b → (j < 1)%nat → b ∉ columns aliased_table)
    as Hfirst.
  { intros [|j] b Hb Hj; [|lia]. injection Hb as <-.
    intros H%list_elem_of_In. vm_compute in H. intuition discriminate. }
  destruct (proj1 normalizer_first_alias aliased_table 1%nat "risk" eq_refl Hin Hfirst)
    as (Hf & Hc & Hd & _).
  split; [exact Hf|]. split; [rewrite Hc; reflexivity|rewrite Hd; reflexivity].
Defined.

(** C5. A table with none of the five aliases among its columns aborts the
    load: the error dialog lists the five alias names and the process exits
    with status 1. *)
Theorem no_alias_aborts (df : DataFrame) :
  (∀ a, a ∈ RISK_ALIASES → a ∉ columns df) →
  load_table df = ErrorExit "CSV Error" no_alias_message 1
  ∧ (∀ fs env, load_data fs env = inr df →
               startup fs env = ErrorExit "CSV Error" no_alias_message 1)
  ∧ no_alias_message =
      "No risk score column found." ++ nl ++ nl ++ "Expected one of:" ++ nl
        ++ String.concat ", " RISK_ALIASES.
Proof.
  intros H. apply found_risk_col_None in H.
  assert (load_table df = ErrorExit "CSV Error" no_alias_message 1) as Hl
    by (unfold load_table; rewrite H; reflexivity).
  split; [done|]. split; [|reflexivity].
  intros fs env Hd. unfold startup. by rewrite Hd.
Qed.

Lemma no_alias_aborts_severity :
  found_risk_col no_alias_table = None
  ∧ load_table no_alias_table = ErrorExit "CSV Error" no_alias_message 1
  ∧ startup disk_features_only frozen_env = ErrorExit "CSV Error" no_alias_message 1.
Proof.
  assert (found_risk_col no_alias_table = None) as H by (vm_compute; reflexivity).
  split; [exact H|].
  destruct (no_alias_aborts no_alias_table (proj1 (found_risk_col_None _) H))
    as (Hl & Hs & _).
  split; [exact Hl|]. apply Hs. vm_compute. reflexivity.
Defined.

Lemma classify_no_dialog df :
  (∃ df', classify df = Loaded df') ∨ (∃ e, classify df = Uncaught e).
Proof.
  unfold classify. destruct (astype_float _); [right|left]; eauto.
Qed.

(** C6. After the score column is renamed, the columns among alert_type,
    user, destination_host that the table lacks are reported, exactly those
    and in that order, in an error dialog, and the process exits with status
    1; when none is lacking the load goes on to the classification. *)
Theorem missing_columns_abort (df : DataFrame) (a : string) :
  found_risk_col df = Some a →
  let df' := rename a "risk_score" df in
  let missing := filter (fun c => c ∉ columns df') other_required in
  (∀ c, c ∈ missing ↔ c ∈ other_required ∧ c ∉ columns df')
  ∧ (missing ≠ [] →
     load_table df = ErrorExit "CSV Error" (missing_message missing) 1
     ∧ ∀ fs env, load_data fs env = inr df →
                 startup fs env = ErrorExit "CSV Error" (missing_message missing) 1)
  ∧ (missing = [] →
     load_table df = classify df'
     ∧ ∀ title message status, load_table df ≠ ErrorExit title message status).
Proof.
  intros Hf df' missing. pose proof (load_table_found _ _ Hf) as Hl.
  fold df' in Hl. fold missing in Hl.
  split; [|split].
  - intros c. unfold missing. rewrite list_elem_of_filter. tauto.
  - intros Hm. destruct missing as [|c m] eqn:Em; [done|]. split; [done|].
    intros fs env Hd. unfold startup. by rewrite Hd.
  - intros Hm. rewrite Hm in Hl. split; [done|].
    intros t m st. rewrite Hl.
    destruct (classify_no_dialog df') as [[? ->]|[? ->]]; discriminate.
Qed.

Lemma missing_columns_abort_short :
  found_risk_col short_table = Some "risk"
  ∧ load_table short_table
    = ErrorExit "CSV Error" (missing_message ["user"; "destination_host"]) 1.
Proof.
  assert (found_risk_col short_table = Some "risk") as H by (vm_compute; reflexivity).
  split; [exact H|].
  destruct (missing_columns_abort short_table "risk" H) as (_ & Hm & _).
  apply Hm. vm_compute. discriminate.
Defined.

(** ** Locating the file *)

Lemma get_csv_path_first fs env f :
  get_csv_path fs env f =
    match first_existing fs env f with
    | Some p => inr p
    | None => inl (FileNotFoundError (f ++ " not found"))
    end.
Proof.
  unfold get_csv_path, first_existing, candidates.
  destruct (MEIPASS env) as [d|]; simpl.
  - destruct (path_exists fs (path_join d f)); [done|].
    destruct (path_exists fs (path_join (base_dir env) f)); [done|].
    by destruct (path_exists fs (path_join (cwd env) f)).
  - destruct (path_exists fs (path_join (base_dir env) f)); [done|].
    by destruct (path_exists fs (path_join (cwd env) f)).
Qed.

Lemma first_existing_exists fs env f p :
  first_existing fs env f = Some p →
  p ∈ candidates env f ∧ ∃ df, fs !! p = Some df.
Proof.
  intros [Hin Hex]%find_some. split; [by apply list_elem_of_In|].
  unfold path_exists in Hex. apply bool_decide_eq_true in Hex as [df Hdf]. eauto.
Qed.

Lemma read_found fs env f p :
  first_existing fs env f = Some p →
  ∃ df, fs !! p = Some df ∧ read_csv fs (get_csv_path fs env f) = inr df.
Proof.
  intros H. rewrite get_csv_path_first, H.
  apply first_existing_exists in H as (_ & df & Hdf).
  exists df. simpl. by rewrite Hdf.
Qed.

Lemma read_not_found fs env f :
  first_existing fs env f = None →
  read_csv fs (get_csv_path fs env f) = inl (FileNotFoundError (f ++ " not found")).
Proof. intros H. by rewrite get_csv_path_first, H. Qed.

(** C7. The file name siem_alerts.csv is tried in the bundled resource
    directory (when there is one), then the base directory (the directory of
    the executable in a frozen build), then the working directory; when it is
    in none of them siem_features.csv is tried the same way; when that is in
    none of them either, a FileNotFoundError escapes and no dialog is shown. *)
Theorem csv_resolution (fs : gmap string DataFrame) (env : sys_env) :
  (∀ f, candidates env f =
          (match MEIPASS env with Some d => [path_join d f] | None => [] end
           ++ [path_join (if frozen env then executable_dir env else script_dir env) f;
               path_join (cwd env) f])%list)
  ∧ (∀ f, get_csv_path fs env f =
            match first_existing fs env f with
            | Some p => inr p
            | None => inl (FileNotFoundError (f ++ " not found"))
            end)
  ∧ (∀ p, first_existing fs env "siem_alerts.csv" = Some p →
          ∃ df, fs !! p = Some df ∧ load_data fs env = inr df)
  ∧ (first_existing fs env "siem_alerts.csv" = None →
     ∀ p, first_existing fs env "siem_features.csv" = Some p →
          ∃ df, fs !! p = Some df ∧ load_data fs env = inr df)
  ∧ (first_existing fs env "siem_alerts.csv" = None →
     first_existing fs env "siem_features.csv" = None →
     load_data fs env = inl (FileNotFoundError "siem_features.csv not found")
     ∧ startup fs env = Uncaught (FileNotFoundError "siem_features.csv not found")).
Proof.
  split; [done|]. split; [apply get_csv_path_first|]. split; [|split].
  - intros p (df & Hdf & Hr)%read_found. exists df. split; [done|].
    unfold load_data. by rewrite Hr.
  - intros H1 p (df & Hdf & Hr)%read_found. exists df. split; [done|].
    unfold load_data. by rewrite (read_not_found _ _ _ H1).
  - intros H1 H2.
    assert (load_data fs env = inl (FileNotFoundError "siem_features.csv not found"))
      as Hl.
    { unfold load_data.
      by rewrite (read_not_found _ _ _ H1), (read_not_found _ _ _ H2). }
    split; [done|]. unfold startup. by rewrite Hl.
Qed.

Lemma csv_resolution_fallback :
  first_existing disk_features_only frozen_env "siem_alerts.csv" = None
  ∧ load_data disk_features_only frozen_env = inr no_alias_table
  ∧ startup ∅ frozen_env = Uncaught (FileNotFoundError "siem_features.csv not found").
Proof.
  assert (first_existing disk_features_only frozen_env "siem_alerts.csv" = None)
    as H1 by (vm_compute; reflexivity).
  assert (first_existing disk_features_only frozen_env "siem_features.csv"
          = Some "/work/siem_features.csv") as H2 by (vm_compute; reflexivity).
  split; [exact H1|]. split.
  - destruct (csv_resolution disk_features_only frozen_env) as (_ & _ & _ & Hs & _).
    destruct (Hs H1 _ H2) as (df & Hdf & ->).
    f_equal. vm_compute in Hdf. by injection Hdf as <-.
  - destruct (csv_resolution ∅ frozen_env) as (_ & _ & _ & _ & Hn).
    apply Hn; vm_compute; reflexivity.
Defined.

(** ** Malformed scores *)

Lemma astype_float_fails l o e :
  o ∈ l → astype_cell o = inl e → ∃ e', astype_float l = inl e'.
Proof.
  intros Hin Ho. induction l as [|o' l IH]; [by apply elem_of_nil in Hin|].
  simpl. destruct (astype_cell o') as [e'|x] eqn:E; [eauto|].
  apply elem_of_cons in Hin as [->|Hin]; [congruence|].
  destruct (IH Hin) as [e' ->]. eauto.
Qed.

Lemma astype_float_length l xs : astype_float l = inr xs → length xs = length l.
Proof.
  revert xs. induction l as [|o l IH]; intros xs; simpl.
  - by intros [= <-].
  - destruct (astype_cell o); [done|]. destruct (astype_float l); [done|].
    intros [= <-]. simpl. f_equal. by apply IH.
Qed.

(** A score cell that [float()] rejects stops the load with the exception. *)
Lemma classify_rejects_text df o e :
  o ∈ column "risk_score" df → astype_cell o = inl e →
  ∃ e', classify df = Uncaught e'.
Proof.
  intros Hin Ho. unfold classify.
  destruct (astype_float_fails _ _ _ Hin Ho) as [e' ->]. eauto.
Qed.

Lemma column_assign_eq c vals df :
  length vals = length (body df) → column c (assign c vals df) = vals.
Proof.
  unfold column, assign. simpl. generalize (body df). intros l.
  revert l. induction vals as [|v vals IH]; intros [|[i r] l]; simpl; try done.
  intros [= Hl]. rewrite IH by done. f_equal.
  unfold cell. by rewrite lookup_insert_eq.
Qed.

Lemma column_assign_ne c c' vals df :
  c ≠ c' → length vals = length (body df) →
  column c (assign c' vals df) = column c df.
Proof.
  intros Hne. unfold column, assign. simpl. generalize (body df). intros l.
  revert l. induction vals as [|v vals IH]; intros [|[i r] l]; simpl; try done.
  intros [= Hl]. rewrite IH by done. f_equal.
  unfold cell. by rewrite lookup_insert_ne.
Qed.

Lemma length_body_assign c vals df :
  length vals = length (body df) → length (body (assign c vals df)) = length (body df).
Proof.
  intros H. unfold assign. simpl. rewrite length_zip_with. lia.
Qed.

Lemma length_column c df : length (column c df) = length (body df).
Proof. unfold column. by rewrite length_fmap. Qed.

(** When the load completes, the level of every row is the classifier's
    answer on the score of that row, and the status is NEW. *)
Lemma classify_levels df df' :
  classify df = Loaded df' →
  ∃ xs, astype_float (column "risk_score" df) = inr xs
        ∧ column "risk_score" df' = PyFloat <$> xs
        ∧ column "risk_level" df'
          = (fun x => PyStr (compute_risk_level (PyFloat x))) <$> xs
        ∧ column "status" df' = (fun _ => PyStr "NEW") <$> xs.
Proof.
  unfold classify. destruct (astype_float _) as [e|xs] eqn:E; [done|].
  pose proof (astype_float_length _ _ E) as Hlen. rewrite length_column in Hlen.
  remember (assign "risk_score" (PyFloat <$> xs) df) as df1 eqn:E1.
  assert (length (body df1) = length (body df)) as H1
    by (subst df1; apply length_body_assign; by rewrite length_fmap).
  assert (column "risk_score" df1 = PyFloat <$> xs) as Hc1
    by (subst df1; apply column_assign_eq; by rewrite length_fmap).
  rewrite Hc1.
  remember (assign "risk_level" _ df1) as df2 eqn:E2.
  assert (length (body df2) = length (body df1)) as H2
    by (subst df2; apply length_body_assign; rewrite !length_fmap; lia).
  assert (column "risk_level" df2
          = (fun x => PyStr (compute_risk_level (PyFloat x))) <$> xs) as Hc2.
  { subst df2. rewrite column_assign_eq by (rewrite !length_fmap; lia).
    by rewrite <- list_fmap_compose. }
  assert (column "risk_score" df2 = PyFloat <$> xs) as Hc2'.
  { subst df2. rewrite column_assign_ne; [done|done|rewrite !length_fmap; lia]. }
  intros [= <-]. exists xs. split; [done|]. split; [|split].
  - rewrite column_assign_ne; [done|done|by rewrite length_fmap].
  - rewrite column_assign_ne; [done|done|by rewrite length_fmap].
  - rewrite column_assign_eq by by rewrite length_fmap.
    apply list_eq. intros i. rewrite !list_lookup_fmap.
    destruct (body df2 !! i) eqn:Eb, (xs !! i) eqn:Ex; try done.
    + apply lookup_lt_Some in Eb. apply lookup_ge_None in Ex. lia.
    + apply lookup_ge_None in Eb. apply lookup_lt_Some in Ex. lia.
Qed.

(** A missing score, NaN, passes the conversion and gets the level LOW. *)
Lemma missing_score_is_low :
  astype_cell (PyFloat nan) = inr nan ∧ astype_cell PyNone = inr nan
  ∧ compute_risk_level (PyFloat nan) = "LOW".
Proof. repeat split. Qed.

(** C2. The table [bad_score_table] passes both schema checks, and its
    score abc, which the classifier alone would put in LOW, makes the
    conversion of the score column raise ValueError: the load does not
    complete. *)
Theorem text_score_aborts_load :
  found_risk_col bad_score_table = Some "risk_score"
  ∧ missing_cols (rename "risk_score" "risk_score" bad_score_table) = []
  ∧ compute_risk_level (PyStr "abc") = "LOW"
  ∧ load_table bad_score_table = Uncaught ValueError.
Proof. repeat split; vm_compute; reflexivity. Qed.

(** ** The displayed view *)

Lemma omap_lookup_seq {A} (l : list A) :
  omap (fun i => l !! i) (seq 0 (length l)) = l.
Proof.
  induction l as [|x l IH]; [done|].
  simpl. f_equal. rewrite <- fmap_S_seq.
  rewrite <- IH at 2. apply list_omap_ext.
  apply Forall2_fmap_l, Forall_Forall2_diag, Forall_forall. done.
Qed.

Lemma sample_rows perm df :
  perm ≡ₚ seq 0 (length (body df)) → body (sample perm df) ≡ₚ body df.
Proof.
  intros H. unfold sample. simpl. rewrite H. by rewrite omap_lookup_seq.
Qed.

Lemma reset_index_rows df : (snd <$> body (reset_index df)) = (snd <$> body df).
Proof.
  unfold reset_index. simpl. rewrite fmap_imap.
  rewrite <- (imap_const snd). by apply imap_ext.
Qed.

Lemma reset_index_labels df :
  (fst <$> body (reset_index df)) = seq 0 (length (body df)).
Proof.
  unfold reset_index. simpl. rewrite fmap_imap.
  rewrite <- (list_fmap_id (seq 0 _)). rewrite <- imap_seq_0. by apply imap_ext.
Qed.

(** After [reset_index] a row sits at the position its label says. *)
Lemma reset_index_position df i r :
  (i, r) ∈ body (reset_index df) → body (reset_index df) !! i = Some (i, r).
Proof.
  intros [j Hj]%list_elem_of_lookup. pose proof Hj as Hj'.
  unfold reset_index in Hj. simpl in Hj. rewrite list_lookup_imap in Hj.
  destruct (body df !! j) as [[k r']|]; [|done].
  simpl in Hj. injection Hj as <- <-. done.
Qed.

Lemma select_severity_sub sev view ir :
  ir ∈ select_severity sev view → ir ∈ body view.
Proof.
  unfold select_severity. destruct (String.eqb sev "ALL"); [done|].
  by intros [_ ?]%list_elem_of_filter.
Qed.

Lemma on_select_position view i r rest :
  body view !! i = Some (i, r) → on_select (i :: rest) view = panel_of r.
Proof.
  intros H. unfold on_select, panel_of. rewrite H. simpl.
  by destruct (mitre_get (cell r "alert_type")).
Qed.

(** C10. When [perm] is a permutation of the row positions, the view has
    the columns of the loaded table, the same rows up to order, and the
    labels 0, 1, ..., n-1; the ALL filter lists every row of the view and a
    severity filter lists the rows of that level; and selecting a listed line
    reads the row of that line, which is a row of the loaded table. *)
Theorem df_view_row_permutation (df : DataFrame) (perm : list nat) :
  perm ≡ₚ seq 0 (length (body df)) →
  let view := df_view perm df in
  columns view = columns df
  ∧ (snd <$> body view) ≡ₚ (snd <$> body df)
  ∧ (fst <$> body view) = seq 0 (length (body df))
  ∧ populate_table "ALL" view = make_item <$> body view
  ∧ (∀ sev, sev ≠ "ALL" →
       populate_table sev view
       = make_item
           <$> filter (fun ir => py_eq_str (cell ir.2 "risk_level") sev = true) (body view)
       ∧ ∀ o, py_eq_str o sev = true ↔ o = PyStr sev)
  ∧ (∀ sev item, item ∈ populate_table sev view →
       ∃ r, item = make_item (iid item, r)
            ∧ r ∈ (snd <$> body df)
            ∧ body view !! iid item = Some (iid item, r)
            ∧ ∀ rest, on_select (iid item :: rest) view = panel_of r).
Proof.
  intros Hperm view.
  assert ((snd <$> body view) ≡ₚ (snd <$> body df)) as Hrows.
  { unfold view, df_view. rewrite reset_index_rows. by rewrite sample_rows. }
  split; [done|]. split; [done|]. split; [|split; [|split]].
  - unfold view, df_view. rewrite reset_index_labels.
    by rewrite (sample_rows _ _ Hperm).
  - done.
  - intros sev Hsev. unfold populate_table, select_severity.
    apply String.eqb_neq in Hsev. rewrite Hsev. split; [done|].
    intros o. unfold py_eq_str. destruct o; try done.
    rewrite String.eqb_eq. split; [by intros ->|by intros [= ->]].
  - intros sev item Hitem. unfold populate_table in Hitem.
    apply list_elem_of_fmap in Hitem as ([i r] & -> & Hin).
    apply select_severity_sub in Hin. exists r.
    change (iid (make_item (i, r))) with i.
    split; [done|]. split.
    + rewrite <- Hrows. apply list_elem_of_fmap. by exists (i, r).
    + pose proof (reset_index_position _ _ _ Hin) as Hpos.
      split; [done|]. intros rest. by apply on_select_position.
Qed.

Lemma df_view_row_permutation_rotate :
  [2; 0; 1]%nat ≡ₚ seq 0 (length (body loaded_sample))
  ∧ (fst <$> body (df_view [2; 0; 1]%nat loaded_sample)) = [0; 1; 2]%nat
  ∧ (snd <$> body (df_view [2; 0; 1]%nat loaded_sample))
    ≡ₚ (snd <$> body loaded_sample).
Proof.
  assert ([2; 0; 1]%nat ≡ₚ seq 0 (length (body loaded_sample))) as H
    by apply (Permutation_app_comm [2%nat] [0%nat; 1%nat]).
  split; [exact H|].
  destruct (df_view_row_permutation loaded_sample [2; 0; 1]%nat H) as (_ & Hr & Hi & _).
  split; [exact Hi|exact Hr].
Defined.

(** * Further properties of the loader and the view *)

(** ** Classification of a whole table *)

Lemma astype_float_inv l e :
  astype_float l = inl e → ∃ o, o ∈ l ∧ astype_cell o = inl e.
Proof.
  induction l as [|o l IH]; simpl; [done|].
  destruct (astype_cell o) as [e'|x] eqn:E.
  - intros [= <-]. exists o. split; [left|done].
  - destruct (astype_float l) as [e'|xs]; [|done].
    intros [= <-]. destruct (IH eq_refl) as (o' & Hin & Ho').
    exists o'. split; [by right|done].
Qed.

Lemma astype_float_all l :
  (∀ o, o ∈ l → ∃ x, astype_cell o = inr x) → ∃ xs, astype_float l = inr xs.
Proof.
  induction l as [|o l IH]; intros H; simpl; [eauto|].
  destruct (H o) as [x ->]; [left|].
  destruct IH as [xs ->]; [|eauto].
  intros o' Ho'. apply H. by right.
Qed.

Lemma astype_float_cells l xs :
  astype_float l = inr xs → Forall2 (fun o x => astype_cell o = inr x) l xs.
Proof.
  revert xs. induction l as [|o l IH]; intros xs; simpl.
  - intros [= <-]. constructor.
  - destruct (astype_cell o) as [|x] eqn:E; [done|].
    destruct (astype_float l) as [|xs']; [done|].
    intros [= <-]. constructor; [done|by apply IH].
Qed.

Lemma assign_labels c vals df :
  length vals = length (body df) →
  (fst <$> body (assign c vals df)) = (fst <$> body df).
Proof.
  unfold assign. simpl. generalize (body df). intros l. revert l.
  induction vals as [|v vals IH]; intros [|[i r] l]; simpl; try done.
  intros [= Hl]. by rewrite IH.
Qed.

(** The steps of [classify], one table after the other. *)
Lemma classify_steps df df' :
  classify df = Loaded df' →
  ∃ xs df1 df2,
    astype_float (column "risk_score" df) = inr xs
    ∧ df1 = assign "risk_score" (PyFloat <$> xs) df
    ∧ df2 = assign "risk_level"
              ((fun o => PyStr (compute_risk_level o)) <$> column "risk_score" df1) df1
    ∧ df' = assign "status" ((fun _ => PyStr "NEW") <$> body df2) df2
    ∧ length (body df1) = length (body df)
    ∧ length (body df2) = length (body df)
    ∧ length xs = length (body df).
Proof.
  unfold classify. destruct (astype_float _) as [e|xs] eqn:E; [done|].
  intros [= <-]. eexists xs, _, _. split; [done|]. do 3 (split; [reflexivity|]).
  pose proof (astype_float_length _ _ E) as Hlen. rewrite length_column in Hlen.
  assert (length (body (assign "risk_score" (PyFloat <$> xs) df)) = length (body df))
    as H1 by (apply length_body_assign; by rewrite length_fmap).
  split; [done|]. split; [|done].
  rewrite length_body_assign; [done|]. by rewrite length_fmap, length_column.
Qed.

Lemma classify_labels df df' :
  classify df = Loaded df' → (fst <$> body df') = (fst <$> body df).
Proof.
  intros (xs & df1 & df2 & _ & E1 & E2 & E3 & H1 & H2 & Hx)%classify_steps.
  rewrite E3, assign_labels by by rewrite length_fmap.
  rewrite E2, assign_labels
    by (rewrite length_fmap, length_column; reflexivity).
  rewrite E1, assign_labels by (rewrite length_fmap; done). done.
Qed.

Lemma classify_other_columns df df' c :
  classify df = Loaded df' → c ∉ derived_cols → column c df' = column c df.
Proof.
  intros (xs & df1 & df2 & _ & E1 & E2 & E3 & H1 & H2 & Hx)%classify_steps Hc.
  assert (c ≠ "risk_score" ∧ c ≠ "risk_level" ∧ c ≠ "status") as (N1 & N2 & N3).
  { unfold derived_cols in Hc. repeat split; intros ->; apply Hc; set_solver. }
  rewrite E3, column_assign_ne; [|done|by rewrite length_fmap].
  rewrite E2, column_assign_ne;
    [|done|rewrite length_fmap, length_column; reflexivity].
  rewrite E1, column_assign_ne; [done|done|by rewrite length_fmap].
Qed.

(** Row by row: the score is a float, the level is the classifier's answer
    on it, the status is NEW. *)
Lemma classify_rows df df' ir :
  classify df = Loaded df' → ir ∈ body df' →
  ∃ x, cell ir.2 "risk_score" = PyFloat x
       ∧ cell ir.2 "risk_level" = PyStr (compute_risk_level (PyFloat x))
       ∧ cell ir.2 "status" = PyStr "NEW".
Proof.
  intros (xs & Hx & Hs & Hl & Hst)%classify_levels [j Hj]%list_elem_of_lookup.
  assert (∀ c, column c df' !! j = Some (cell ir.2 c)) as Hc
    by (intros c; unfold column; by rewrite list_lookup_fmap, Hj).
  pose proof (Hc "risk_score") as H1. rewrite Hs in H1.
  apply list_lookup_fmap_Some in H1 as (x & E1 & Hxj).
  pose proof (Hc "risk_level") as H2. rewrite Hl, list_lookup_fmap, Hxj in H2.
  pose proof (Hc "status") as H3. rewrite Hst, list_lookup_fmap, Hxj in H3.
  exists x. simpl in H2, H3. split; [congruence|]. split; congruence.
Qed.

(** X1. When the classification completes, the rows keep their labels and
    their other columns, every score is the float the conversion gave, every
    level is the classifier's answer on that float, and every status is NEW. *)
Theorem classify_row_invariant (df df' : DataFrame) :
  classify df = Loaded df' →
  (fst <$> body df') = (fst <$> body df)
  ∧ (∀ c, c ∉ derived_cols → column c df' = column c df)
  ∧ Forall2 (fun o o' => ∃ x, astype_cell o = inr x ∧ o' = PyFloat x)
      (column "risk_score" df) (column "risk_score" df')
  ∧ (∀ ir, ir ∈ body df' →
       ∃ x, cell ir.2 "risk_score" = PyFloat x
            ∧ cell ir.2 "risk_level" = PyStr (compute_risk_level (PyFloat x))
            ∧ cell ir.2 "status" = PyStr "NEW").
Proof.
  intros H. split; [by apply classify_labels|].
  split; [intros c Hc; by apply (classify_other_columns df)|].
  split; [|intros ir Hir; by apply (classify_rows df df')].
  destruct (classify_levels _ _ H) as (xs & Hx & -> & _).
  apply astype_float_cells in Hx. apply Forall2_fmap_r.
  eapply Forall2_impl; [exact Hx|]. simpl. eauto.
Qed.

Lemma classify_row_invariant_good :
  ∃ df', classify good_table = Loaded df'
         ∧ (fst <$> body df') = [0; 1; 2]%nat
         ∧ column "risk_level" df' = [PyStr "HIGH"; PyStr "HIGH"; PyStr "LOW"].
Proof.
  assert (∃ df', classify good_table = Loaded df') as [df' E]
    by (eexists; vm_compute; reflexivity).
  exists df'. split; [exact E|].
  destruct (classify_row_invariant good_table df' E) as (Hl & _ & _ & _).
  split; [rewrite Hl; reflexivity|].
  destruct (classify_levels _ _ E) as (xs & Hx & _ & -> & _).
  vm_compute in Hx. injection Hx as <-. vm_compute. reflexivity.
Defined.

(** X2. The classification completes exactly when every score cell
    converts to a float; otherwise the exception of a failing cell escapes.
    The cells that fail are the texts that are not a float literal
    (ValueError) and the integers beyond the doubles (OverflowError). *)
Theorem classify_all_or_nothing (df : DataFrame) :
  ((∃ df', classify df = Loaded df')
   ↔ ∀ o, o ∈ column "risk_score" df → ∃ x, astype_cell o = inr x)
  ∧ (∀ e, classify df = Uncaught e →
          ∃ o, o ∈ column "risk_score" df ∧ astype_cell o = inl e)
  ∧ (∀ title message status, classify df ≠ ErrorExit title message status)
  ∧ (∀ o e, astype_cell o = inl e →
       (∃ s, o = PyStr s ∧ str_to_float s = None ∧ e = ValueError)
       ∨ (∃ n, o = PyInt n ∧ e = OverflowError))
  ∧ ((∀ x, astype_cell (PyFloat x) = inr x)
     ∧ astype_cell PyNone = inr nan
     ∧ astype_cell (PyStr "0.70") = inr T_HIGH
     ∧ astype_cell (PyStr "abc") = inl ValueError
     ∧ astype_cell (PyStr (String (ascii_of_nat 28) "0.70")) = inl ValueError).
Proof.
  split; [split|split; [|split; [|split]]];
    [| | | | |repeat split; vm_compute; reflexivity].
  - intros [df' H] o Ho.
    destruct (astype_cell o) as [e|x] eqn:E; [|eauto].
    destruct (classify_rejects_text _ _ _ Ho E) as [e' He']. congruence.
  - intros H. apply astype_float_all in H as [xs Hxs].
    unfold classify. rewrite Hxs. eauto.
  - intros e. unfold classify.
    destruct (astype_float _) as [e'|xs] eqn:E; [|done].
    intros [= <-]. by apply astype_float_inv.
  - intros t m st. destruct (classify_no_dialog df) as [[? ->]|[? ->]]; done.
  - intros [| | n | |s] e; simpl; try done.
    + unfold int_to_float. intros H. right. exists n. split; [done|].
      destruct (binary_normalize _ _ _ _ _); congruence.
    + destruct (str_to_float s) eqn:E; [done|]. intros [= <-]. left. eauto.
Qed.

(** ** The load as a whole *)

Ltac list_cases H :=
  repeat (apply elem_of_cons in H as [->|H]); [..|by apply elem_of_nil in H].

Lemma found_risk_col_alias df a : found_risk_col df = Some a → a ∈ RISK_ALIASES.
Proof.
  intros (i & Hi & _)%found_risk_col_Some. by eapply list_elem_of_lookup_2.
Qed.

Lemma found_risk_col_column df a : found_risk_col df = Some a → a ∈ columns df.
Proof. by intros (i & _ & Ha & _)%found_risk_col_Some. Qed.

(** The bound alias is risk_score itself, or the table has no risk_score. *)
Lemma found_risk_col_canonical df a :
  found_risk_col df = Some a → a = "risk_score" ∨ "risk_score" ∉ columns df.
Proof.
  intros (i & Hi & _ & Hfirst)%found_risk_col_Some.
  destruct i as [|i]; [left; by injection Hi as <-|right].
  apply (Hfirst 0%nat); [done|lia].
Qed.

Lemma alias_not_other a c : a ∈ RISK_ALIASES → c ∈ other_required → c ≠ a.
Proof.
  unfold RISK_ALIASES, other_required. intros Ha Hc.
  list_cases Ha; list_cases Hc; done.
Qed.

Lemma rename_elem_of_other old new df c :
  old ∈ columns df → c ≠ old → c ≠ new →
  c ∈ columns (rename old new df) ↔ c ∈ columns df.
Proof.
  intros Hold H1 H2. rewrite rename_columns by done.
  rewrite list_elem_of_fmap. split.
  - intros (c0 & E & Hin). destruct (decide (c0 = old)); congruence.
  - intros Hin. exists c. by rewrite decide_False.
Qed.

Lemma rename_column_other old new df c :
  c ≠ old → c ≠ new → column c (rename old new df) = column c df.
Proof.
  intros H1 H2. unfold rename. destruct (decide (old ∈ columns df)); [|done].
  unfold column. simpl. rewrite <- list_fmap_compose.
  apply list_fmap_ext. intros _ [i r] _. simpl.
  unfold cell. by rewrite rename_row_other.
Qed.

Lemma classify_completes df :
  (∃ df', classify df = Loaded df')
  ↔ ∀ o, o ∈ column "risk_score" df → ∃ x, astype_cell o = inr x.
Proof.
  split.
  - intros [df' H] o Ho.
    destruct (astype_cell o) as [e|x] eqn:E; [|eauto].
    destruct (classify_rejects_text _ _ _ Ho E) as [e' He']. congruence.
  - intros H. apply astype_float_all in H as [xs Hxs].
    unfold classify. rewrite Hxs. eauto.
Qed.

Lemma filter_missing_nil (cols : list string) (req : list string) :
  filter (fun c => c ∉ cols) req = [] ↔ ∀ c, c ∈ req → c ∈ cols.
Proof.
  induction req as [|c req IH]; simpl.
  - split; [intros _ c Hc; by apply elem_of_nil in Hc|done].
  - rewrite filter_cons. destruct (decide (c ∉ cols)) as [Hn|Hn].
    + split; [done|]. intros H. exfalso. apply Hn, H. left.
    + rewrite IH. apply dec_stable in Hn. split.
      * intros H c' [->|Hc']%elem_of_cons; [done|by apply H].
      * intros H c' Hc'. apply H. by right.
Qed.

(** X4. The table loads exactly when one of the aliases is a column, the
    columns alert_type, user and destination_host are there, and every cell
    of the bound score column converts to a float. *)
Theorem load_table_succeeds_iff (df : DataFrame) :
  (∃ df', load_table df = Loaded df')
  ↔ ∃ a, found_risk_col df = Some a
         ∧ (∀ c, c ∈ other_required → c ∈ columns df)
         ∧ ∀ o, o ∈ column a df → ∃ x, astype_cell o = inr x.
Proof.
  destruct (found_risk_col df) as [a|] eqn:Hf.
  - pose proof (found_risk_col_alias _ _ Hf) as Ha.
    pose proof (found_risk_col_column _ _ Hf) as Hin.
    rewrite (load_table_found _ _ Hf).
    assert ((∀ c, c ∈ other_required → c ∈ columns (rename a "risk_score" df))
            ↔ ∀ c, c ∈ other_required → c ∈ columns df) as Hcols.
    { split; intros H c Hc; specialize (H c Hc);
        (apply (rename_elem_of_other a "risk_score" df c Hin);
         [by apply alias_not_other|unfold other_required in Hc; list_cases Hc; done|done]). }
    destruct (filter _ other_required) as [|m ms] eqn:Hm.
    + pose proof (proj1 (filter_missing_nil _ _) Hm) as Hm'.
      rewrite classify_completes.
      rewrite rename_column_data by done. split.
      * intros H. exists a. split; [done|]. split; [by apply (proj1 Hcols)|done].
      * intros (a' & [= <-] & _ & H). done.
    + split; [intros [? ?]; done|].
      intros (a' & [= <-] & H & _).
      pose proof (proj2 (filter_missing_nil _ _) (proj2 Hcols H)) as Hnil.
      congruence.
  - split.
    + intros [df' H]. unfold load_table in H. rewrite Hf in H. done.
    + intros (a & ? & _). done.
Qed.

(** X5. The normalizer keeps the column names distinct and their number,
    and leaves every column other than the bound one as it was: its name is
    still a column and its cells are the same. *)
Theorem rename_keeps_columns (df : DataFrame) (a : string) :
  found_risk_col df = Some a →
  let df' := rename a "risk_score" df in
  (NoDup (columns df) → NoDup (columns df'))
  ∧ length (columns df') = length (columns df)
  ∧ (fst <$> body df') = (fst <$> body df)
  ∧ (∀ c, c ≠ a → c ≠ "risk_score" →
       (c ∈ columns df' ↔ c ∈ columns df) ∧ column c df' = column c df)
  ∧ (a ≠ "risk_score" → a ∉ columns df').
Proof.
  intros Hf df'. pose proof (found_risk_col_column _ _ Hf) as Hin.
  pose proof (found_risk_col_canonical _ _ Hf) as Hcan.
  unfold df'. rewrite rename_columns by done.
  split; [|split; [|split; [|split]]].
  - apply NoDup_fmap_2_strong. intros x y Hx Hy.
    destruct (decide (x = a)) as [->|Hxa], (decide (y = a)) as [->|Hya];
      try done; intros E; subst; destruct Hcan; congruence.
  - by rewrite length_fmap.
  - unfold rename. rewrite decide_True by done. simpl.
    rewrite <- list_fmap_compose. by apply list_fmap_ext.
  - intros c H1 H2. split; [|by apply rename_column_other].
    rewrite <- (rename_columns a "risk_score" df Hin).
    by apply rename_elem_of_other.
  - intros Hne [c [E Hc]]%list_elem_of_fmap.
    destruct (decide (c = a)); congruence.
Qed.

Lemma rename_keeps_columns_aliased :
  found_risk_col aliased_table = Some "risk"
  ∧ NoDup (columns (rename "risk" "risk_score" aliased_table))
  ∧ column "score" (rename "risk" "risk_score" aliased_table)
    = [PyFloat score_0_875].
Proof.
  assert (found_risk_col aliased_table = Some "risk") as H by (vm_compute; reflexivity).
  split; [exact H|].
  destruct (rename_keeps_columns aliased_table "risk" H) as (Hn & _ & _ & Hc & _).
  split.
  - apply Hn. apply NoDup_ListNoDup. vm_compute.
    repeat (constructor; [simpl; intuition discriminate|]). constructor.
  - destruct (Hc "score") as [_ ->]; [done|done|reflexivity].
Defined.

Lemma rename_row_same old r : rename_row old old r = r.
Proof.
  unfold rename_row. apply map_eq. intros k.
  rewrite lookup_partial_alter. destruct (decide (old = k)) as [->|Hne]; [done|].
  by rewrite lookup_delete_ne.
Qed.

(** X6. A table that already has a risk_score column binds to it, whatever
    other aliases it has, and the renaming changes nothing. *)
Theorem canonical_table_unchanged (df : DataFrame) :
  "risk_score" ∈ columns df →
  found_risk_col df = Some "risk_score"
  ∧ rename "risk_score" "risk_score" df = df.
Proof.
  intros Hin. split.
  - apply found_risk_col_Some. exists 0%nat. split; [done|]. split; [done|].
    intros j b _ Hj. lia.
  - unfold rename. rewrite decide_True by done. destruct df as [cols rows].
    simpl. f_equal.
    + rewrite <- (list_fmap_id cols) at 2. apply list_fmap_ext.
      intros _ c _. simpl. destruct (decide (c = "risk_score")); congruence.
    + rewrite <- (list_fmap_id rows) at 2. apply list_fmap_ext.
      intros _ [i r] _. simpl. by rewrite rename_row_same.
Qed.

Lemma canonical_table_unchanged_good :
  found_risk_col good_table = Some "risk_score"
  ∧ rename "risk_score" "risk_score" good_table = good_table.
Proof.
  apply (canonical_table_unchanged good_table).
  apply list_elem_of_In. vm_compute. tauto.
Defined.

Lemma find_first {A} (f : A → bool) (l : list A) x :
  List.find f l = Some x →
  ∃ l1 l2, l = (l1 ++ x :: l2)%list ∧ f x = true ∧ ∀ y, y ∈ l1 → f y = false.
Proof.
  induction l as [|a l IH]; simpl; [done|].
  destruct (f a) eqn:E.
  - intros [= <-]. exists [], l. split; [done|]. split; [done|].
    by intros y ?%elem_of_nil.
  - intros (l1 & l2 & -> & Hx & Hl1)%IH. exists (a :: l1), l2.
    split; [done|]. split; [done|].
    intros y [->|Hy]%elem_of_cons; [done|by apply Hl1].
Qed.

(** X7. A path returned by [get_csv_path] exists and is the first of the
    candidates that does; the bundled file wins when it exists; and the
    function raises, with the file name in the message, exactly when no
    candidate exists. *)
Theorem get_csv_path_sound (fs : gmap string DataFrame) (env : sys_env) (f : string) :
  (∀ p, get_csv_path fs env f = inr p →
        path_exists fs p = true
        ∧ ∃ l1 l2, candidates env f = (l1 ++ p :: l2)%list
                   ∧ ∀ q, q ∈ l1 → path_exists fs q = false)
  ∧ (∀ d, MEIPASS env = Some d → path_exists fs (path_join d f) = true →
          get_csv_path fs env f = inr (path_join d f))
  ∧ ((∃ e, get_csv_path fs env f = inl e)
     ↔ ∀ p, p ∈ candidates env f → path_exists fs p = false)
  ∧ (∀ e, get_csv_path fs env f = inl e → e = FileNotFoundError (f ++ " not found")).
Proof.
  rewrite get_csv_path_first. split; [|split; [|split]].
  - intros p. destruct (first_existing fs env f) as [p'|] eqn:E; [|done].
    intros [= <-]. apply find_first in E as (l1 & l2 & Hc & Hp & Hl1).
    split; [done|]. by exists l1, l2.
  - intros d Hd Hex. unfold first_existing, candidates. rewrite Hd. simpl.
    by rewrite Hex.
  - destruct (first_existing fs env f) as [p'|] eqn:E.
    + split; [intros [? ?]; done|]. intros H.
      apply find_some in E as [Hin Hex]. apply list_elem_of_In in Hin.
      rewrite (H _ Hin) in Hex. done.
    + split; [|eauto]. intros _ p Hp%list_elem_of_In.
      apply (find_none _ _ E _ Hp).
  - intros e. destruct (first_existing fs env f); [done|]. by intros [= <-].
Qed.

(** ** The table widget and the investigation panel *)

Lemma populate_table_iids sev view :
  (iid <$> populate_table sev view) = (fst <$> select_severity sev view).
Proof.
  unfold populate_table. rewrite <- list_fmap_compose.
  by apply list_fmap_ext.
Qed.

Lemma select_severity_sublist sev view :
  select_severity sev view `sublist_of` body view.
Proof.
  unfold select_severity. destruct (String.eqb sev "ALL"); [done|].
  apply sublist_filter.
Qed.

Lemma body_df_view perm df :
  body (df_view perm df) = imap (fun i ir => (i, ir.2)) (body (sample perm df)).
Proof. reflexivity. Qed.

Lemma body_sample perm df :
  body (sample perm df) = omap (fun i => body df !! i) perm.
Proof. reflexivity. Qed.

Lemma df_view_labels perm df :
  (fst <$> body (df_view perm df)) = seq 0 (length (body (df_view perm df))).
Proof.
  rewrite body_df_view, length_imap. apply reset_index_labels.
Qed.

(** A row of the view is a row of the table it was drawn from. *)
Lemma df_view_row perm df ir :
  ir ∈ body (df_view perm df) → ∃ ir', ir' ∈ body df ∧ ir.2 = ir'.2.
Proof.
  intros [j Hj]%list_elem_of_lookup.
  rewrite body_df_view, list_lookup_imap in Hj.
  destruct (body (sample perm df) !! j) as [ir0|] eqn:E; [|done].
  injection Hj as <-. exists ir0. split; [|done].
  apply list_elem_of_lookup_2 in E. rewrite body_sample in E.
  apply list_elem_of_omap in E as (k & _ & Hk).
  by eapply list_elem_of_lookup_2.
Qed.

Lemma df_view_lookup perm df i :
  (i < length (body (df_view perm df)))%nat →
  ∃ r, body (df_view perm df) !! i = Some (i, r).
Proof.
  intros [[k r] H]%lookup_lt_is_Some. exists r. rewrite H. f_equal. f_equal.
  rewrite body_df_view, list_lookup_imap in H.
  destruct (body (sample perm df) !! i); [|done]. by injection H as <- _.
Qed.

(** X8. Whatever the shuffle, the lines of the tree have distinct ids below
    the number of rows of the view, and a filtered listing is the ALL listing
    with lines left out, in the same order. *)
Theorem populate_table_lines (perm : list nat) (df : DataFrame) (sev : string) :
  let view := df_view perm df in
  NoDup (iid <$> populate_table sev view)
  ∧ populate_table sev view `sublist_of` populate_table "ALL" view
  ∧ length (populate_table "ALL" view) = length (body view)
  ∧ ∀ item, item ∈ populate_table sev view →
            (iid item < length (body view))%nat.
Proof.
  intros view.
  assert ((fst <$> select_severity sev view) `sublist_of` seq 0 (length (body view)))
    as Hsub.
  { unfold view. rewrite <- df_view_labels.
    apply fmap_sublist, select_severity_sublist. }
  split; [|split; [|split]].
  - rewrite populate_table_iids. apply (sublist_NoDup _ _ (NoDup_seq _ _) Hsub).
  - unfold populate_table. apply fmap_sublist.
    change (select_severity "ALL" view) with (body view).
    apply select_severity_sublist.
  - unfold populate_table. by rewrite length_fmap.
  - intros item Hitem.
    assert (iid item ∈ iid <$> populate_table sev view) as Hin
      by (apply list_elem_of_fmap; eauto).
    rewrite populate_table_iids in Hin.
    apply (elem_of_sublist _ _ _ Hin) in Hsub.
    apply elem_of_seq in Hsub. lia.
Qed.

Lemma filter_none {A} (P : A → Prop) `{!∀ x, Decision (P x)} (l : list A) :
  (∀ x, x ∈ l → ¬ P x) → filter P l = [].
Proof.
  induction l as [|x l IH]; intros Hall; [done|].
  rewrite filter_cons_False by (apply Hall; left).
  apply IH. intros y Hy. apply Hall. by right.
Qed.

Lemma filter3_partition {A} (P1 P2 P3 : A → Prop)
    `{!∀ x, Decision (P1 x), !∀ x, Decision (P2 x), !∀ x, Decision (P3 x)} (l : list A) :
  (∀ x, x ∈ l → (P1 x ∧ ¬ P2 x ∧ ¬ P3 x) ∨ (¬ P1 x ∧ P2 x ∧ ¬ P3 x)
                ∨ (¬ P1 x ∧ ¬ P2 x ∧ P3 x)) →
  filter P1 l ++ filter P2 l ++ filter P3 l ≡ₚ l.
Proof.
  induction l as [|x l IH]; intros Hall; [done|].
  assert (filter P1 l ++ filter P2 l ++ filter P3 l ≡ₚ l) as IH'
    by (apply IH; intros y Hy; apply Hall; by right).
  rewrite !filter_cons.
  destruct (Hall x ltac:(left)) as [(Q1 & Q2 & Q3)|[(Q1 & Q2 & Q3)|(Q1 & Q2 & Q3)]];
    destruct (decide (P1 x)), (decide (P2 x)), (decide (P3 x)); try tauto.
  - rewrite <- app_comm_cons. by rewrite IH'.
  - rewrite <- app_comm_cons, <- Permutation_middle. by rewrite IH'.
  - rewrite app_assoc, <- Permutation_middle, <- app_assoc. by rewrite IH'.
Qed.

(** In a view of a loaded table every row carries one of the three levels. *)
Lemma loaded_view_row df df' perm ir :
  classify df = Loaded df' → ir ∈ body (df_view perm df') →
  ∃ x, cell ir.2 "risk_score" = PyFloat x
       ∧ cell ir.2 "risk_level" = PyStr (compute_risk_level (PyFloat x)).
Proof.
  intros H (ir' & Hin & E)%df_view_row. rewrite E.
  destruct (classify_rows _ _ _ H Hin) as (x & ? & ? & _). eauto.
Qed.

(** X9. On a loaded table the HIGH, MEDIUM and LOW listings together are
    the ALL listing, each line once; any other filter value lists nothing. *)
Theorem severity_filters_partition (df df' : DataFrame) (perm : list nat) :
  classify df = Loaded df' →
  let view := df_view perm df' in
  populate_table "HIGH" view ++ populate_table "MEDIUM" view
    ++ populate_table "LOW" view ≡ₚ populate_table "ALL" view
  ∧ ∀ sev, sev ∉ ["ALL"; "HIGH"; "MEDIUM"; "LOW"] → populate_table sev view = [].
Proof.
  intros H view.
  assert (∀ ir, ir ∈ body view →
            ∃ lv, lv ∈ ["LOW"; "MEDIUM"; "HIGH"] ∧ cell ir.2 "risk_level" = PyStr lv)
    as Hlv.
  { intros ir Hir. destruct (loaded_view_row _ _ _ _ H Hir) as (x & _ & ->).
    exists (compute_risk_level (PyFloat x)). split; [|done].
    destruct (compute_risk_level_range (PyFloat x)) as [-> | [-> | ->]]; set_solver. }
  split.
  - unfold populate_table. rewrite <- !fmap_app.
    change (select_severity "ALL" view) with (body view).
    apply fmap_Permutation. unfold select_severity. simpl.
    apply filter3_partition. intros ir Hir.
    destruct (Hlv ir Hir) as (lv & Hin & ->). simpl.
    list_cases Hin; simpl; [right; right|right; left|left]; done.
  - intros sev Hsev. unfold populate_table, select_severity.
    assert (String.eqb sev "ALL" = false) as ->
      by (apply String.eqb_neq; intros ->; apply Hsev; set_solver).
    rewrite filter_none; [done|]. intros ir Hir.
    destruct (Hlv ir Hir) as (lv & Hin & ->). simpl.
    intros E%String.eqb_eq. subst sev. apply Hsev.
    rewrite !elem_of_cons in Hin. rewrite !elem_of_cons. tauto.
Qed.

Lemma severity_filters_partition_good :
  ∃ df', classify good_table = Loaded df'
         ∧ (iid <$> populate_table "HIGH" (df_view [2; 0; 1]%nat df')) = [1; 2]%nat
         ∧ populate_table "MEDIUM" (df_view [2; 0; 1]%nat df') = []
         ∧ length (populate_table "ALL" (df_view [2; 0; 1]%nat df')) = 3%nat.
Proof.
  assert (∃ df', classify good_table = Loaded df') as [df' E]
    by (eexists; vm_compute; reflexivity).
  exists df'. split; [exact E|].
  destruct (severity_filters_partition good_table df' [2; 0; 1]%nat E) as [Hp _].
  apply Permutation_length in Hp. rewrite <- Hp. clear Hp.
  vm_compute in E. injection E as <-. vm_compute. auto.
Defined.

Lemma select_severity_elem sev view ir :
  sev ≠ "ALL" →
  ir ∈ select_severity sev view
  ↔ ir ∈ body view ∧ cell ir.2 "risk_level" = PyStr sev.
Proof.
  intros Hsev%String.eqb_neq. unfold select_severity. rewrite Hsev.
  rewrite list_elem_of_filter. unfold py_eq_str.
  destruct (cell ir.2 "risk_level") as [| | | |t]; try (split; intros [? ?]; done).
  rewrite String.eqb_eq. split; intros [? ?]; split; first [done|congruence].
Qed.

(** X10. On a loaded table the HIGH filter lists exactly the rows whose
    score is at least 0.70, the MEDIUM filter those from 0.45 up to 0.70, and
    the LOW filter those below 0.45 or with a missing score (NaN). *)
Theorem severity_filter_by_score (df df' : DataFrame) (perm : list nat) :
  classify df = Loaded df' →
  let view := df_view perm df' in
  ∀ ir, ir ∈ body view →
    ∃ x, cell ir.2 "risk_score" = PyFloat x
         ∧ (ir ∈ select_severity "HIGH" view ↔ ge x T_HIGH = true)
         ∧ (ir ∈ select_severity "MEDIUM" view
            ↔ ge x T_MEDIUM = true ∧ lt x T_HIGH = true)
         ∧ (ir ∈ select_severity "LOW" view
            ↔ lt x T_MEDIUM = true ∨ is_nan x = true).
Proof.
  intros H view ir Hir.
  destruct (loaded_view_row _ _ _ _ H Hir) as (x & Hx & Hl).
  exists x. split; [done|].
  rewrite !select_severity_elem by done. rewrite Hl.
  destruct (risk_level_cases x) as (HH & HM & HL). simpl in HH, HM, HL.
  unfold compute_risk_level. simpl.
  split; [|split].
  - rewrite <- HH. split; [intros [_ [= E]]; done|intros E; by rewrite E].
  - rewrite <- HM. split; [intros [_ [= E]]; done|intros E; by rewrite E].
  - rewrite <- HL. split; [intros [_ [= E]]; done|intros E; by rewrite E].
Qed.

Lemma severity_filter_by_score_good :
  ∃ df', classify good_table = Loaded df'
         ∧ ∃ ir x, ir ∈ body (df_view [2; 0; 1]%nat df')
                   ∧ cell ir.2 "risk_score" = PyFloat x
                   ∧ (ir ∈ select_severity "HIGH" (df_view [2; 0; 1]%nat df')
                      ↔ ge x T_HIGH = true).
Proof.
  assert (∃ df', classify good_table = Loaded df') as [df' E]
    by (eexists; vm_compute; reflexivity).
  exists df'. split; [exact E|].
  assert (∃ ir, body (df_view [2; 0; 1]%nat df') !! 1%nat = Some ir) as [ir Hir].
  { apply lookup_lt_is_Some. rewrite body_df_view, length_imap, body_sample.
    vm_compute in E. injection E as <-. vm_compute. lia. }
  apply list_elem_of_lookup_2 in Hir.
  destruct (severity_filter_by_score good_table df' [2; 0; 1]%nat E ir Hir)
    as (x & Hx & HH & _).
  exists ir, x. done.
Defined.

(** X11. On a loaded table, selecting a line whose id is below the number
    of rows always fills the panel and raises nothing: the row read is the
    one at that position, the tactic and technique come from the MITRE map,
    and the explanation is chosen by the thresholds 0.75 and 0.45.  An id
    beyond the rows is an IndexError, and an empty selection does nothing. *)
Theorem on_select_loaded (df df' : DataFrame) (perm : list nat) :
  classify df = Loaded df' →
  let view := df_view perm df' in
  on_select [] view = NoSelection
  ∧ (∀ i rest, (length (body view) ≤ i)%nat → on_select (i :: rest) view = IndexError)
  ∧ (∀ i rest, (i < length (body view))%nat →
       ∃ r x, body view !! i = Some (i, r)
              ∧ cell r "risk_score" = PyFloat x
              ∧ on_select (i :: rest) view
                = Shown {| panel_row := r;
                           tactic := (mitre_get (cell r "alert_type")).1;
                           technique := (mitre_get (cell r "alert_type")).2;
                           explanation :=
                             if ge x T_STRONG then EXPL_HIGH
                             else if ge x T_MEDIUM then EXPL_MEDIUM
                             else EXPL_LOW |}).
Proof.
  intros H view. split; [done|]. split.
  - intros i rest Hi. unfold on_select.
    by rewrite (proj2 (lookup_ge_None _ _) Hi).
  - intros i rest Hi. destruct (df_view_lookup _ _ _ Hi) as [r Hr].
    assert ((i, r) ∈ body view) as Hin by by eapply list_elem_of_lookup_2.
    destruct (loaded_view_row _ _ _ _ H Hin) as (x & Hx & _). simpl in Hx.
    exists r, x. split; [done|]. split; [done|].
    rewrite (on_select_position _ _ _ _ Hr). unfold panel_of.
    by rewrite Hx, ml_explanation_float.
Qed.

Lemma on_select_loaded_good :
  ∃ df', classify good_table = Loaded df'
         ∧ on_select [7%nat] (df_view [2; 0; 1]%nat df') = IndexError
         ∧ ∃ p, on_select [2%nat] (df_view [2; 0; 1]%nat df') = Shown p
                ∧ explanation p = EXPL_MEDIUM.
Proof.
  assert (∃ df', classify good_table = Loaded df') as [df' E]
    by (eexists; vm_compute; reflexivity).
  exists df'. split; [exact E|].
  destruct (on_select_loaded good_table df' [2; 0; 1]%nat E) as (_ & Hout & Hin).
  assert (length (body (df_view [2; 0; 1]%nat df')) = 3%nat) as Hlen.
  { rewrite body_df_view, length_imap, body_sample.
    vm_compute in E. injection E as <-. reflexivity. }
  split; [apply Hout; lia|].
  destruct (Hin 2%nat [] ltac:(lia)) as (r & x & Hr & Hx & ->).
  eexists. split; [reflexivity|]. simpl.
  vm_compute in E. injection E as <-.
  vm_compute in Hr. injection Hr as <-.
  vm_compute in Hx. injection Hx as <-. reflexivity.
Defined.

(** ** The charts *)

Lemma eqb_nan_r x y : is_nan y = true → (x =? y)%float = false.
Proof.
  intros Hy%is_nan_spec. rewrite FloatAxioms.eqb_spec. unfold SFeqb. rewrite Hy.
  by destruct (Prim2SF x).
Qed.

Lemma int_eq_float_nan n y : is_nan y = true → int_eq_float n y = false.
Proof. intros Hy%is_nan_spec. unfold int_eq_float. by rewrite Hy. Qed.

Lemma py_eqb_refl o : is_na o = false → py_eqb o o = true.
Proof.
  destruct o as [|b|n|x|s]; simpl; try done.
  - intros _. apply Z.eqb_refl.
  - intros _. apply Z.eqb_refl.
  - unfold is_nan. by intros ->%negb_false_iff.
  - intros _. apply String.eqb_refl.
Qed.

(** Nothing that is present equals a missing value. *)
Lemma py_eqb_na k o : is_na k = false → is_na o = true → py_eqb k o = false.
Proof.
  destruct o as [| | |y|]; simpl; try done; intros Hk Ho.
  - by destruct k.
  - destruct k as [|b|n|x|s]; simpl; try done;
      auto using eqb_nan_r, int_eq_float_nan.
Qed.

Lemma py_eqb_str s o : py_eqb (PyStr s) o = true ↔ o = PyStr s.
Proof.
  destruct o as [| | | |t]; simpl; try (split; done).
  rewrite String.eqb_eq. split; [by intros ->|by intros [= ->]].
Qed.

Lemma py_eqb_str_r s o : py_eqb o (PyStr s) = true ↔ o = PyStr s.
Proof.
  destruct o as [| | | |t]; simpl; try (split; done).
  rewrite String.eqb_eq. split; [by intros ->|by intros [= ->]].
Qed.

Lemma first_seen_elem seen l k :
  k ∈ first_seen seen l → k ∈ l ∧ existsb (py_eqb k) seen = false.
Proof.
  revert seen. induction l as [|o l IH]; intros seen; simpl.
  - by intros ?%elem_of_nil.
  - destruct (existsb (py_eqb o) seen) eqn:E.
    + intros (Hin & Hs)%IH. split; [by right|done].
    + intros [->|(Hin & Hs)%IH]%elem_of_cons; [split; [left|done]|].
      split; [by right|]. simpl in Hs. by apply orb_false_iff in Hs as [_ ?].
Qed.

Lemma first_seen_NoDup seen l :
  (∀ o, o ∈ l → py_eqb o o = true) → NoDup (first_seen seen l).
Proof.
  revert seen. induction l as [|o l IH]; intros seen Hrefl; simpl; [constructor|].
  assert (∀ o', o' ∈ l → py_eqb o' o' = true) as Hrefl'
    by (intros o' Ho'; apply Hrefl; by right).
  destruct (existsb (py_eqb o) seen); [by apply IH|].
  constructor; [|by apply IH].
  intros (_ & Hs)%first_seen_elem. simpl in Hs.
  rewrite (Hrefl o) in Hs by left. done.
Qed.

Lemma first_seen_complete seen l o :
  (∀ o', o' ∈ l → py_eqb o' o' = true) → o ∈ l →
  existsb (py_eqb o) seen = true
  ∨ ∃ k, k ∈ first_seen seen l ∧ py_eqb o k = true.
Proof.
  revert seen. induction l as [|o' l IH]; intros seen Hrefl Hin;
    [by apply elem_of_nil in Hin|].
  assert (∀ o', o' ∈ l → py_eqb o' o' = true) as Hrefl'
    by (intros o'' Ho''; apply Hrefl; by right).
  simpl. apply elem_of_cons in Hin as [->|Hin].
  - destruct (existsb (py_eqb o') seen) eqn:E; [by left|right].
    exists o'. split; [left|]. apply Hrefl. left.
  - destruct (existsb (py_eqb o') seen) eqn:E; [by apply IH|].
    destruct (IH (o' :: seen) Hrefl' Hin) as [Hs|(k & Hk & Hok)].
    + simpl in Hs. apply orb_true_iff in Hs as [Hs|Hs]; [right|by left].
      exists o'. split; [left|done].
    + right. exists k. split; [by right|done].
Qed.

Lemma length_filter_fmap {A B} (f : A → B) (P : B → Prop)
    `{!∀ y, Decision (P y)} (l : list A) :
  length (filter P (f <$> l)) = length (filter (fun x => P (f x)) l).
Proof.
  induction l as [|x l IH]; [done|].
  rewrite fmap_cons, !filter_cons. destruct (decide (P (f x))); simpl; by rewrite IH.
Qed.

Lemma count_eq_present k (l : list pyobj) :
  is_na k = false → count_eq k (filter (fun o => is_na o = false) l) = count_eq k l.
Proof.
  intros Hk. unfold count_eq. induction l as [|o l IH]; [done|].
  rewrite !filter_cons. destruct (decide (is_na o = false)) as [Ho|Ho].
  - rewrite filter_cons. destruct (decide (py_eqb k o = true)); simpl; by rewrite IH.
  - apply not_false_is_true in Ho.
    rewrite decide_False by (by rewrite (py_eqb_na k o)). done.
Qed.

Lemma count_eq_column k c (data : list (nat * gmap string pyobj)) :
  count_eq k ((fun ir => cell ir.2 c) <$> data) = rows_with c k data.
Proof. unfold count_eq, rows_with. apply length_filter_fmap. Qed.

(** The entries of [value_counts], whatever the order. *)
Lemma value_counts_elem sort (l : list pyobj) k n :
  (∀ l', sort l' ≡ₚ l') →
  (k, n) ∈ value_counts sort l
  ↔ k ∈ first_seen [] (filter (fun o => is_na o = false) l) ∧ n = count_eq k l.
Proof.
  intros Hsort. unfold value_counts. rewrite Hsort, list_elem_of_fmap. split.
  - intros (k' & [= -> ->] & Hk). split; [done|].
    apply count_eq_present.
    apply first_seen_elem in Hk as [Hk%list_elem_of_filter _]. tauto.
  - intros [Hk ->]. exists k. split; [|done]. f_equal. symmetry.
    apply count_eq_present.
    apply first_seen_elem in Hk as [Hk%list_elem_of_filter _]. tauto.
Qed.

Lemma present_refl (l : list pyobj) o :
  o ∈ filter (fun o => is_na o = false) l → py_eqb o o = true.
Proof. intros [Ho _]%list_elem_of_filter. by apply py_eqb_refl. Qed.

Lemma value_counts_NoDup sort l :
  (∀ l', sort l' ≡ₚ l') → NoDup (fst <$> value_counts sort l).
Proof.
  intros Hsort. unfold value_counts. rewrite Hsort.
  assert (∀ (g : pyobj → nat) ks, (fst <$> ((fun k => (k, g k)) <$> ks)) = ks) as ->
    by (intros g ks; induction ks as [|k ks IH]; [done|];
        rewrite !fmap_cons, IH; done).
  apply first_seen_NoDup, present_refl.
Qed.

Lemma value_counts_positive sort l k n :
  (∀ l', sort l' ≡ₚ l') → (k, n) ∈ value_counts sort l →
  is_na k = false ∧ k ∈ l ∧ (0 < n)%nat.
Proof.
  intros Hsort [Hk ->]%value_counts_elem; [|done].
  apply first_seen_elem in Hk as [[Hna Hin]%list_elem_of_filter _].
  split; [done|]. split; [done|]. unfold count_eq.
  assert (k ∈ filter (fun o => py_eqb k o = true) l) as Hf
    by (apply list_elem_of_filter; split; [by apply py_eqb_refl|done]).
  destruct (filter _ l); [by apply elem_of_nil in Hf|simpl; lia].
Qed.

Lemma value_counts_complete sort l o :
  (∀ l', sort l' ≡ₚ l') → o ∈ l → is_na o = false →
  ∃ k n, (k, n) ∈ value_counts sort l ∧ py_eqb o k = true.
Proof.
  intros Hsort Hin Hna.
  assert (o ∈ filter (fun o => is_na o = false) l) as Hp
    by (by apply list_elem_of_filter).
  destruct (first_seen_complete [] _ o (present_refl l) Hp) as [?|(k & Hk & Hok)];
    [done|].
  exists k, (count_eq k l). split; [|done]. by apply value_counts_elem.
Qed.

Lemma bar_colors_inr counts bars :
  bar_colors counts = inr bars →
  (fst <$> bars) = counts
  ∧ ∀ k n col, (k, n, col) ∈ bars →
      ∃ s, k = PyStr s ∧ CHART_COLORS !! s = Some col.
Proof.
  revert bars. induction counts as [|[k n] counts IH]; intros bars; simpl.
  - intros [= <-]. split; [done|]. by intros ? ? ? ?%elem_of_nil.
  - destruct k as [| | | |s]; try done.
    destruct (CHART_COLORS !! s) as [col|] eqn:E; [|done].
    destruct (bar_colors counts) as [|bars']; [done|].
    intros [= <-]. destruct (IH bars' eq_refl) as [Hf Hc].
    split; [by rewrite fmap_cons, Hf|].
    intros k n' col' [[= -> -> ->]|Hin]%elem_of_cons; eauto.
Qed.

Lemma bar_colors_inl counts k :
  bar_colors counts = inl k →
  (∃ n, (k, n) ∈ counts)
  ∧ ∀ s, k = PyStr s → CHART_COLORS !! s = None.
Proof.
  induction counts as [|[k' n] counts IH]; simpl; [done|].
  destruct (match k' with PyStr s => CHART_COLORS !! s | _ => None end) eqn:E.
  - destruct (bar_colors counts) as [k''|]; [|done].
    intros [= ->]. destruct (IH eq_refl) as [[n' Hn'] Hc].
    split; [exists n'; by right|done].
  - intros [= ->]. split; [exists n; left|].
    intros s ->. done.
Qed.

Lemma chart_colors_dom s : is_Some (CHART_COLORS !! s) ↔ s ∈ CHART_LEVELS.
Proof.
  rewrite <- not_eq_None_Some. unfold CHART_COLORS.
  rewrite <- not_elem_of_list_to_map. simpl.
  change (["HIGH"; "MEDIUM"; "LOW"]) with CHART_LEVELS.
  split; [apply dec_stable|by intros ? ?].
Qed.

Lemma update_charts_drawn sort data c :
  update_charts sort data = Drawn c →
  bar_colors (value_counts sort ((fun ir => cell ir.2 "risk_level") <$> data))
    = inr (severity_bars c)
  ∧ host_bars c
    = reverse (take 5 (value_counts sort
                         ((fun ir => cell ir.2 "destination_host") <$> data))).
Proof.
  unfold update_charts. destruct (bar_colors _) as [k|bars]; [done|].
  by intros [= <-].
Qed.

Lemma column_value_row c (data : list (nat * gmap string pyobj)) k :
  k ∈ (fun ir => cell ir.2 c) <$> data → ∃ ir, ir ∈ data ∧ cell ir.2 c = k.
Proof. intros (ir & -> & Hin)%list_elem_of_fmap. eauto. Qed.

Lemma update_charts_key_error_aux sort data :
  (∀ l, sort l ≡ₚ l) →
  ((∃ k, update_charts sort data = KeyError k)
   ↔ ∃ ir, ir ∈ data ∧ is_na (cell ir.2 "risk_level") = false
           ∧ ∀ lv, lv ∈ CHART_LEVELS → cell ir.2 "risk_level" ≠ PyStr lv)
  ∧ (∀ k, update_charts sort data = KeyError k →
          ∃ ir, ir ∈ data ∧ cell ir.2 "risk_level" = k
                ∧ ∀ lv, lv ∈ CHART_LEVELS → k ≠ PyStr lv).
Proof.
  intros Hsort.
  assert (∀ k, update_charts sort data = KeyError k →
            ∃ ir, ir ∈ data ∧ cell ir.2 "risk_level" = k ∧ is_na k = false
                  ∧ ∀ lv, lv ∈ CHART_LEVELS → k ≠ PyStr lv) as Herr.
  { intros k. unfold update_charts.
    destruct (bar_colors _) as [k'|bars] eqn:E; [|done]. intros [= ->].
    apply bar_colors_inl in E as [[n Hn] Hc].
    apply value_counts_positive in Hn as (Hna & Hin & _); [|done].
    apply column_value_row in Hin as (ir & Hir & Hk).
    exists ir. split; [done|]. split; [done|]. split; [done|].
    intros lv Hlv ->. apply chart_colors_dom in Hlv as [col Hcol].
    rewrite (Hc lv eq_refl) in Hcol. done. }
  split; [split|].
  - intros [k (ir & Hir & <- & Hna & Hlv)%Herr]. eauto.
  - intros (ir & Hir & Hna & Hlv).
    destruct (update_charts sort data) as [k|c] eqn:E; [eauto|exfalso].
    apply update_charts_drawn in E as [E _].
    apply bar_colors_inr in E as [Hf Hc].
    destruct (value_counts_complete sort
                ((fun ir => cell ir.2 "risk_level") <$> data)
                (cell ir.2 "risk_level") Hsort) as (k & n & Hkn & Hok).
    { apply list_elem_of_fmap. eauto. }
    { done. }
    rewrite <- Hf in Hkn. apply list_elem_of_fmap in Hkn as ([[k' n'] col] & [= <- <-] & Hb).
    destruct (Hc _ _ _ Hb) as (s & -> & Hs).
    apply py_eqb_str_r in Hok. apply (Hlv s); [|done].
    apply chart_colors_dom. eauto.
  - intros k (ir & Hir & Hk & _ & Hlv)%Herr. eauto.
Qed.

(** X12. The severity chart fails with a KeyError exactly when some listed
    row has a level that is present and is not HIGH, MEDIUM or LOW; the key
    of the error is such a level. *)
Theorem update_charts_key_error
    (sort : list (pyobj * nat) → list (pyobj * nat))
    (data : list (nat * gmap string pyobj)) :
  (∀ l, sort l ≡ₚ l) →
  ((∃ k, update_charts sort data = KeyError k)
   ↔ ∃ ir, ir ∈ data ∧ is_na (cell ir.2 "risk_level") = false
           ∧ ∀ lv, lv ∈ CHART_LEVELS → cell ir.2 "risk_level" ≠ PyStr lv)
  ∧ (∀ k, update_charts sort data = KeyError k →
          ∃ ir, ir ∈ data ∧ cell ir.2 "risk_level" = k
                ∧ ∀ lv, lv ∈ CHART_LEVELS → k ≠ PyStr lv).
Proof. apply update_charts_key_error_aux. Qed.

Lemma update_charts_key_error_critical :
  (∀ l, sort_by_count l ≡ₚ l)
  ∧ ∃ k, update_charts sort_by_count unknown_level_data = KeyError k.
Proof.
  assert (∀ l, sort_by_count l ≡ₚ l) as Hs by apply merge_sort_Permutation.
  split; [exact Hs|].
  apply (proj1 (update_charts_key_error sort_by_count unknown_level_data Hs)).
  eexists. split; [left|]. split; [reflexivity|].
  intros lv Hlv. unfold CHART_LEVELS in Hlv.
  list_cases Hlv; vm_compute; discriminate.
Defined.

Lemma bars_of_counts (bars : list (pyobj * nat * string)) k n :
  (k, n) ∈ (fst <$> bars) → ∃ col, (k, n, col) ∈ bars.
Proof. intros ([[k' n'] col] & [= <- <-] & Hb)%list_elem_of_fmap. eauto. Qed.

(** X13. For any filter of a view of a loaded table the charts are drawn
    and no KeyError is raised: there is one bar per level that occurs among
    the listed rows, in the colour of that level, as high as the number of
    listed rows with that level. *)
Theorem severity_chart_loaded
    (sort : list (pyobj * nat) → list (pyobj * nat))
    (df df' : DataFrame) (perm : list nat) (sev : string) :
  (∀ l, sort l ≡ₚ l) →
  classify df = Loaded df' →
  let data := select_severity sev (df_view perm df') in
  ∃ c, update_charts sort data = Drawn c
       ∧ NoDup ((fun b => b.1.1) <$> severity_bars c)
       ∧ (∀ k n col, (k, n, col) ∈ severity_bars c →
            ∃ lv, k = PyStr lv ∧ lv ∈ CHART_LEVELS
                  ∧ CHART_COLORS !! lv = Some col
                  ∧ n = rows_with "risk_level" k data ∧ (0 < n)%nat)
       ∧ (∀ ir, ir ∈ data →
            ∃ n col, (cell ir.2 "risk_level", n, col) ∈ severity_bars c).
Proof.
  intros Hsort H data.
  assert (∀ ir, ir ∈ data →
            ∃ lv, lv ∈ CHART_LEVELS ∧ cell ir.2 "risk_level" = PyStr lv) as Hlv.
  { intros ir Hir%select_severity_sub.
    destruct (loaded_view_row _ _ _ _ H Hir) as (x & _ & ->).
    exists (compute_risk_level (PyFloat x)). split; [|done].
    unfold CHART_LEVELS. rewrite !elem_of_cons.
    destruct (compute_risk_level_range (PyFloat x)) as [-> | [-> | ->]]; tauto. }
  destruct (update_charts sort data) as [k|c] eqn:E.
  { destruct (proj2 (update_charts_key_error_aux sort data Hsort) k E)
      as (ir & Hir & Hk & Hno).
    destruct (Hlv ir Hir) as (lv & Hin & Hl). exfalso.
    apply (Hno lv Hin). congruence. }
  exists c. split; [done|].
  apply update_charts_drawn in E as [E _].
  apply bar_colors_inr in E as [Hf Hc].
  split; [|split].
  - assert (((fun b => b.1.1) <$> severity_bars c) = (fst <$> (fst <$> severity_bars c)))
      as -> by (by rewrite <- list_fmap_compose).
    rewrite Hf. by apply value_counts_NoDup.
  - intros k n col Hb. destruct (Hc _ _ _ Hb) as (s & -> & Hs).
    exists s. split; [done|]. split; [apply chart_colors_dom; eauto|].
    split; [done|].
    assert ((PyStr s, n) ∈ fst <$> severity_bars c) as Hkn
      by (apply list_elem_of_fmap; by exists (PyStr s, n, col)).
    rewrite Hf in Hkn.
    pose proof (value_counts_positive _ _ _ _ Hsort Hkn) as (_ & _ & Hpos).
    apply (value_counts_elem _ _ _ _ Hsort) in Hkn as [_ ->].
    split; [apply count_eq_column|done].
  - intros ir Hir. destruct (Hlv ir Hir) as (lv & _ & Hl).
    destruct (value_counts_complete sort
                ((fun ir => cell ir.2 "risk_level") <$> data)
                (cell ir.2 "risk_level") Hsort) as (k & n & Hkn & Hok).
    { apply list_elem_of_fmap. eauto. }
    { by rewrite Hl. }
    rewrite Hl in Hok. apply py_eqb_str in Hok as ->.
    rewrite <- Hf in Hkn. apply bars_of_counts in Hkn as [col Hb].
    exists n, col. by rewrite Hl.
Qed.

Lemma severity_chart_loaded_good :
  ∃ df' c, classify good_table = Loaded df'
           ∧ update_charts sort_by_count (select_severity "HIGH" (df_view [2; 0; 1]%nat df'))
             = Drawn c
           ∧ severity_bars c = [(PyStr "HIGH", 2%nat, "#dc2626")].
Proof.
  assert (∃ df', classify good_table = Loaded df') as [df' E]
    by (eexists; vm_compute; reflexivity).
  destruct (severity_chart_loaded sort_by_count good_table df' [2; 0; 1]%nat "HIGH"
              (merge_sort_Permutation count_ge) E) as (c & Hc & _).
  exists df', c. split; [exact E|]. split; [exact Hc|].
  vm_compute in E. injection E as <-.
  vm_compute in Hc. injection Hc as <-. reflexivity.
Defined.

Global Instance count_ge_trans : Transitive count_ge.
Proof. unfold count_ge. intros a b c. lia. Qed.

Global Instance count_ge_total : Total count_ge.
Proof. unfold count_ge. intros a b. lia. Qed.

(** X14. The host chart shows at most five hosts, each once, none of them
    missing, each with the number of listed rows for that host; and a host of
    a listed row that is not shown has no more rows than any host shown. *)
Theorem host_chart_top5
    (sort : list (pyobj * nat) → list (pyobj * nat))
    (data : list (nat * gmap string pyobj)) (c : charts) :
  (∀ l, sort l ≡ₚ l) →
  (∀ l, Sorted count_ge (sort l)) →
  update_charts sort data = Drawn c →
  (length (host_bars c) ≤ 5)%nat
  ∧ NoDup (fst <$> host_bars c)
  ∧ (∀ k n, (k, n) ∈ host_bars c →
       is_na k = false ∧ n = rows_with "destination_host" k data ∧ (0 < n)%nat)
  ∧ (∀ ir, ir ∈ data → is_na (cell ir.2 "destination_host") = false →
       ∃ k n, py_eqb (cell ir.2 "destination_host") k = true
              ∧ n = rows_with "destination_host" k data
              ∧ ((k, n) ∈ host_bars c
                 ∨ (length (host_bars c) = 5%nat
                    ∧ ∀ k' n', (k', n') ∈ host_bars c → (n ≤ n')%nat))).
Proof.
  intros Hsort Hsorted (_ & ->)%update_charts_drawn.
  set (hosts := (fun ir => cell ir.2 "destination_host") <$> data).
  set (L := value_counts sort hosts).
  assert (∀ kn, kn ∈ reverse (take 5 L) ↔ kn ∈ take 5 L) as Hrev
    by (intros kn; apply elem_of_reverse).
  assert (∀ kn, kn ∈ take 5 L → kn ∈ L) as Htake
    by (intros kn Hkn; by apply (elem_of_sublist _ _ _ Hkn), sublist_take).
  split; [|split; [|split]].
  - rewrite length_reverse, length_take. lia.
  - rewrite fmap_reverse, reverse_Permutation.
    apply (sublist_NoDup _ (fst <$> L)); [by apply value_counts_NoDup|].
    apply fmap_sublist, sublist_take.
  - intros k n Hkn%Hrev%Htake.
    pose proof (value_counts_positive _ _ _ _ Hsort Hkn) as (Hna & _ & Hpos).
    apply (value_counts_elem _ _ _ _ Hsort) in Hkn as [_ ->].
    split; [done|]. split; [apply count_eq_column|done].
  - intros ir Hir Hna.
    destruct (value_counts_complete sort hosts (cell ir.2 "destination_host") Hsort)
      as (k & n & Hkn & Hok); [apply list_elem_of_fmap; eauto|done|].
    exists k, n. split; [done|]. split.
    { apply (value_counts_elem _ _ _ _ Hsort) in Hkn as [_ ->].
      apply count_eq_column. }
    fold L in Hkn. rewrite <- (take_drop 5 L) in Hkn.
    apply elem_of_app in Hkn as [Hkn|Hkn]; [left; by apply Hrev|right].
    split.
    + rewrite length_reverse, length_take.
      destruct (decide (length L ≤ 5)%nat) as [Hle|Hgt]; [|lia].
      rewrite drop_ge in Hkn by done. by apply elem_of_nil in Hkn.
    + intros k' n' Hkn'%Hrev.
      assert (StronglySorted count_ge (take 5 L ++ drop 5 L)) as Hss.
      { rewrite take_drop. apply Sorted_StronglySorted; [apply _|apply Hsorted]. }
      apply (StronglySorted_app_1_elem_of _ _ _ _ _ Hss Hkn' Hkn).
Qed.

Lemma host_chart_top5_six :
  (∀ l, sort_by_count l ≡ₚ l)
  ∧ (∀ l, Sorted count_ge (sort_by_count l))
  ∧ ∃ c, update_charts sort_by_count six_hosts_data = Drawn c
         ∧ length (host_bars c) = 5%nat
         ∧ NoDup (fst <$> host_bars c)
         ∧ (PyStr "b", 2%nat) ∈ host_bars c.
Proof.
  assert (∀ l, sort_by_count l ≡ₚ l) as Hp by apply merge_sort_Permutation.
  assert (∀ l, Sorted count_ge (sort_by_count l)) as Hs
    by (intros l; apply (Sorted_merge_sort count_ge)).
  split; [exact Hp|]. split; [exact Hs|].
  assert (∃ c, update_charts sort_by_count six_hosts_data = Drawn c) as [c E]
    by (eexists; vm_compute; reflexivity).
  exists c. split; [exact E|].
  destruct (host_chart_top5 sort_by_count six_hosts_data c Hp Hs E)
    as (_ & Hnd & _ & _).
  split; [|split; [exact Hnd|]];
    vm_compute in E; injection E as <-; [reflexivity|].
  apply list_elem_of_In. vm_compute. tauto.
Defined.

(** ** The start-up as a whole *)

Lemma load_table_exceptions df e :
  load_table df = Uncaught e → e = ValueError ∨ e = OverflowError.
Proof.
  unfold load_table. destruct (falsy _); [done|].
  destruct (missing_cols _); [|done]. unfold classify.
  destruct (astype_float _) as [e'|] eqn:E; [|done]. intros [= ->].
  apply astype_float_inv in E as (o & _ & Ho).
  destruct o as [| |n| |s]; simpl in Ho; try done.
  - unfold int_to_float in Ho. right.
    destruct (binary_normalize _ _ _ _ _); congruence.
  - destruct (str_to_float s); [done|]. left. congruence.
Qed.

(** X15. The start-up builds the table from the first file found, when it
    is read, and from no other: when siem_alerts.csv exists its schema errors
    end the start-up even if siem_features.csv would load.  The
    FileNotFoundError of [get_csv_path] escapes exactly when neither name
    exists, and from the table that was read the only exceptions that escape
    are the ValueError and OverflowError of the score conversion. *)
Theorem startup_first_file (fs : gmap string DataFrame) (env : sys_env) :
  (∀ p df, first_existing fs env "siem_alerts.csv" = Some p → fs !! p = Some df →
           startup fs env = load_table df)
  ∧ (∀ p df, first_existing fs env "siem_alerts.csv" = None →
             first_existing fs env "siem_features.csv" = Some p → fs !! p = Some df →
             startup fs env = load_table df)
  ∧ (first_existing fs env "siem_alerts.csv" = None →
     first_existing fs env "siem_features.csv" = None →
     startup fs env = Uncaught (FileNotFoundError "siem_features.csv not found"))
  ∧ (∀ df m, load_table df ≠ Uncaught (FileNotFoundError m))
  ∧ (∀ df e, load_table df = Uncaught e → e = ValueError ∨ e = OverflowError).
Proof.
  split; [|split; [|split; [|split]]].
  - intros p df (df' & Hdf & Hr)%read_found Hp.
    unfold startup, load_data. rewrite Hr. congruence.
  - intros p df Hn (df' & Hdf & Hr)%read_found Hp.
    unfold startup, load_data. rewrite (read_not_found _ _ _ Hn), Hr. congruence.
  - intros Hn1 Hn2. unfold startup, load_data.
    by rewrite (read_not_found _ _ _ Hn1), (read_not_found _ _ _ Hn2).
  - intros df m [?|?]%load_table_exceptions; done.
  - intros df e. apply load_table_exceptions.
Qed.

Lemma startup_first_file_both :
  first_existing disk_both frozen_env "siem_alerts.csv" = Some "/opt/app/siem_alerts.csv"
  ∧ (∃ df', load_table good_table = Loaded df')
  ∧ startup disk_both frozen_env = ErrorExit "CSV Error" no_alias_message 1.
Proof.
  assert (first_existing disk_both frozen_env "siem_alerts.csv"
          = Some "/opt/app/siem_alerts.csv") as H by (vm_compute; reflexivity).
  split; [exact H|]. split; [eexists; vm_compute; reflexivity|].
  destruct (startup_first_file disk_both frozen_env) as (H1 & _).
  rewrite (H1 _ no_alias_table H); vm_compute; reflexivity.
Defined.

(** ** Monotonicity *)

Lemma ge_mono x y c : ge y x = true → ge x c = true → is_nan c = false → ge y c = true.
Proof.
  intros Hyx Hxc Hc. destruct (ge y c) eqn:E; [done|].
  apply ge_false_lt in E; [|by eapply ge_not_nan|done].
  pose proof (lt_le_trans _ _ _ E Hxc) as Hlt.
  apply lt_ge_false in Hlt. congruence.
Qed.

(** X16. The classifier is monotone: of two float scores the larger never
    gets the lower level; and so is the choice of the explanation band. *)
Theorem compute_risk_level_monotone (x y : float) :
  ge y x = true →
  (level_rank (compute_risk_level (PyFloat x))
   ≤ level_rank (compute_risk_level (PyFloat y)))%nat
  ∧ (ml_explanation (PyFloat y) = inr EXPL_LOW →
     ml_explanation (PyFloat x) = inr EXPL_LOW)
  ∧ (ml_explanation (PyFloat x) = inr EXPL_HIGH →
     ml_explanation (PyFloat y) = inr EXPL_HIGH).
Proof.
  intros Hyx. unfold compute_risk_level. simpl. rewrite !ml_explanation_float.
  assert (∀ c, ge x c = true → is_nan c = false → ge y c = true) as Hm
    by (intros c; by apply ge_mono).
  split; [|split].
  - destruct (ge x T_HIGH) eqn:EH; [by rewrite (Hm T_HIGH)|].
    destruct (ge x T_MEDIUM) eqn:EM.
    + rewrite (Hm T_MEDIUM) by done. destruct (ge y T_HIGH); vm_compute; lia.
    + destruct (ge y T_HIGH), (ge y T_MEDIUM); vm_compute; lia.
  - destruct (ge y T_STRONG) eqn:ES; [done|].
    destruct (ge y T_MEDIUM) eqn:EM; [done|]. intros _.
    destruct (ge x T_STRONG) eqn:ES'; [rewrite (Hm T_STRONG) in ES; done|].
    destruct (ge x T_MEDIUM) eqn:EM'; [rewrite (Hm T_MEDIUM) in EM; done|done].
  - destruct (ge x T_STRONG) eqn:ES; [by rewrite (Hm T_STRONG)|].
    by destruct (ge x T_MEDIUM).
Qed.

Lemma compute_risk_level_monotone_072 :
  ge score_0_875 score_0_72 = true
  ∧ (level_rank (compute_risk_level (PyFloat score_0_72))
     ≤ level_rank (compute_risk_level (PyFloat score_0_875)))%nat.
Proof.
  assert (ge score_0_875 score_0_72 = true) as H by reflexivity.
  split; [exact H|].
  exact (proj1 (compute_risk_level_monotone score_0_72 score_0_875 H)).
Defined.
